(** * PrivOracle: a shallow embedding of the prediction ledger

    The contract [PrivOracle] keeps a write-once daily price per asset,
    one encrypted prediction per (user, asset, day) and an encrypted points
    balance per user.  Every Solidity mapping is a finite map read with the
    EVM default for absent keys, every [uintN] is an [N] with its bound
    written out, and every external function is a computation in a small
    state-and-revert monad whose failure keeps the state reached so far, so
    that the rollback done by the EVM is visible in [transact]. *)

From stdpp Require Import gmap strings list.
From Stdlib Require Import NArith Lia DecimalString DecimalN DecimalPos.

Local Open Scope N_scope.

(** ** Machine integers *)

Definition address := N.
Definition bytes := list Byte.byte.

Definition uint64_max : N := 2 ^ 64 - 1.
Definition uint128_max : N := 2 ^ 128 - 1.
Definition uint256_max : N := 2 ^ 256 - 1.

(** The explicit narrowing casts [uint64(x)] and [uint128(x)]. *)
Definition uint64 (x : N) : N := x mod 2 ^ 64.
Definition uint128 (x : N) : N := x mod 2 ^ 128.

(** [1 days] *)
Definition one_days : N := 86400.

(** ** The confidential engine, as the interface the contract consumes *)

Module FHE.

Class Engine := {
  ebool : Type;
  euint8 : Type;
  euint64 : Type;
  euint128 : Type;
  externalEuint8 : Type;
  externalEuint64 : Type;
  (** the handle found in a storage slot that was never written *)
  zero8 : euint8;
  zero64 : euint64;
  zero128 : euint128;
  asEuint8 : N -> euint8;
  asEuint64 : N -> euint64;
  asEuint128 : N -> euint128;
  (** [None] when the input proof does not verify: the call reverts *)
  fromExternal8 : externalEuint8 -> bytes -> option euint8;
  fromExternal64 : externalEuint64 -> bytes -> option euint64;
  gt : euint64 -> euint64 -> ebool;
  lt : euint64 -> euint64 -> ebool;
  eq : euint8 -> euint8 -> ebool;
  and : ebool -> ebool -> ebool;
  or : ebool -> ebool -> ebool;
  select : ebool -> euint128 -> euint128 -> euint128;
  add : euint128 -> euint128 -> euint128;
}.

(** The plaintext stand-in: a handle is the value it stands for, the
    operations are the ones on integers and booleans, and uint128
    addition wraps.  What makes an input proof acceptable is left to
    [verify]. *)
Definition Plain (verify : N -> bytes -> bool) : Engine := {|
  ebool := bool;
  euint8 := N;
  euint64 := N;
  euint128 := N;
  externalEuint8 := N;
  externalEuint64 := N;
  zero8 := 0;
  zero64 := 0;
  zero128 := 0;
  asEuint8 := fun v => v mod 2 ^ 8;
  asEuint64 := fun v => v mod 2 ^ 64;
  asEuint128 := fun v => v mod 2 ^ 128;
  fromExternal8 := fun h proof =>
    if verify h proof then Some (h mod 2 ^ 8) else None;
  fromExternal64 := fun h proof =>
    if verify h proof then Some (h mod 2 ^ 64) else None;
  gt := fun a b => b <? a;
  lt := fun a b => a <? b;
  eq := fun a b => a =? b;
  and := andb;
  or := orb;
  select := fun c a b => if c then a else b;
  add := fun a b => (a + b) mod 2 ^ 128;
|}.

End FHE.

(** ** Reverts *)

Inductive Failure :=
| Error (reason : string)   (* require(cond, reason) *)
| InvalidProof              (* FHE.fromExternal rejected the input proof *)
| Panic (code : N).         (* checked arithmetic, 0x11 *)

Global Instance Failure_eq_dec : EqDecision Failure.
Proof. solve_decision. Defined.

Inductive Status :=
| Success
| Failed (f : Failure).

Global Instance Status_eq_dec : EqDecision Status.
Proof. solve_decision. Defined.

(** ** Call context *)

Record Env := {
  msg_sender : address;
  block_timestamp : N;
  this : address;            (* address(this), the ledger itself *)
}.

Section Ledger.

Context `{E : FHE.Engine}.

(** *** Storage *)

Record Prediction := {
  price : FHE.euint64;
  direction : FHE.euint8;
  stake : N;
  confirmed : bool;
  exists_ : bool;
}.

(** The value of a [Prediction] slot that was never written. *)
Definition no_prediction : Prediction := {|
  price := FHE.zero64;
  direction := FHE.zero8;
  stake := 0;
  confirmed := false;
  exists_ := false;
|}.

Inductive Event :=
| OwnerUpdated (previousOwner newOwner : address)
| PriceRecorded (asset day price : N)
| PredictionPlaced (user : address) (asset day stake : N)
| PredictionConfirmed (user : address) (asset day : N).

(** An encrypted handle of any width, as the access-control list sees it. *)
Inductive Handle :=
| H8 (h : FHE.euint8)
| H64 (h : FHE.euint64)
| H128 (h : FHE.euint128).

Record State := {
  _owner : address;
  _dailyPrice : gmap (N * N) N;
  _priceRecorded : gmap (N * N) bool;
  _latestDay : gmap N N;
  _predictions : gmap (address * N * N) Prediction;
  _points : gmap address FHE.euint128;
  _pointsInitialized : gmap address bool;
  (** grants made through FHE.allow / FHE.allowThis, newest first *)
  acl : list (Handle * address);
  (** emitted events, newest first *)
  events : list Event;
}.

(** *** Reading storage: absent keys read as the zero value *)

Definition dailyPrice (s : State) (asset day : N) : N :=
  default 0 (_dailyPrice s !! (asset, day)).
Definition priceRecorded (s : State) (asset day : N) : bool :=
  default false (_priceRecorded s !! (asset, day)).
Definition latestDay (s : State) (asset : N) : N :=
  default 0 (_latestDay s !! asset).
Definition predictions (s : State) (user : address) (asset day : N) : Prediction :=
  default no_prediction (_predictions s !! (user, asset, day)).
Definition points (s : State) (user : address) : FHE.euint128 :=
  default FHE.zero128 (_points s !! user).
Definition pointsInitialized (s : State) (user : address) : bool :=
  default false (_pointsInitialized s !! user).

(** *** Writing storage *)

Definition set_dailyPrice (asset day v : N) (s : State) : State :=
  {| _owner := _owner s;
     _dailyPrice := <[(asset, day) := v]> (_dailyPrice s);
     _priceRecorded := _priceRecorded s;
     _latestDay := _latestDay s;
     _predictions := _predictions s;
     _points := _points s;
     _pointsInitialized := _pointsInitialized s;
     acl := acl s;
     events := events s |}.

Definition set_priceRecorded (asset day : N) (v : bool) (s : State) : State :=
  {| _owner := _owner s;
     _dailyPrice := _dailyPrice s;
     _priceRecorded := <[(asset, day) := v]> (_priceRecorded s);
     _latestDay := _latestDay s;
     _predictions := _predictions s;
     _points := _points s;
     _pointsInitialized := _pointsInitialized s;
     acl := acl s;
     events := events s |}.

Definition set_latestDay (asset v : N) (s : State) : State :=
  {| _owner := _owner s;
     _dailyPrice := _dailyPrice s;
     _priceRecorded := _priceRecorded s;
     _latestDay := <[asset := v]> (_latestDay s);
     _predictions := _predictions s;
     _points := _points s;
     _pointsInitialized := _pointsInitialized s;
     acl := acl s;
     events := events s |}.

Definition set_prediction (user : address) (asset day : N) (p : Prediction)
    (s : State) : State :=
  {| _owner := _owner s;
     _dailyPrice := _dailyPrice s;
     _priceRecorded := _priceRecorded s;
     _latestDay := _latestDay s;
     _predictions := <[(user, asset, day) := p]> (_predictions s);
     _points := _points s;
     _pointsInitialized := _pointsInitialized s;
     acl := acl s;
     events := events s |}.

Definition set_points (user : address) (v : FHE.euint128) (s : State) : State :=
  {| _owner := _owner s;
     _dailyPrice := _dailyPrice s;
     _priceRecorded := _priceRecorded s;
     _latestDay := _latestDay s;
     _predictions := _predictions s;
     _points := <[user := v]> (_points s);
     _pointsInitialized := _pointsInitialized s;
     acl := acl s;
     events := events s |}.

Definition set_pointsInitialized (user : address) (v : bool) (s : State) : State :=
  {| _owner := _owner s;
     _dailyPrice := _dailyPrice s;
     _priceRecorded := _priceRecorded s;
     _latestDay := _latestDay s;
     _predictions := _predictions s;
     _points := _points s;
     _pointsInitialized := <[user := v]> (_pointsInitialized s);
     acl := acl s;
     events := events s |}.

Definition add_grant (h : Handle) (who : address) (s : State) : State :=
  {| _owner := _owner s;
     _dailyPrice := _dailyPrice s;
     _priceRecorded := _priceRecorded s;
     _latestDay := _latestDay s;
     _predictions := _predictions s;
     _points := _points s;
     _pointsInitialized := _pointsInitialized s;
     acl := (h, who) :: acl s;
     events := events s |}.

Definition add_event (e : Event) (s : State) : State :=
  {| _owner := _owner s;
     _dailyPrice := _dailyPrice s;
     _priceRecorded := _priceRecorded s;
     _latestDay := _latestDay s;
     _predictions := _predictions s;
     _points := _points s;
     _pointsInitialized := _pointsInitialized s;
     acl := acl s;
     events := e :: events s |}.

(** Field writes through a [Prediction storage] pointer. *)
Definition with_price (v : FHE.euint64) (p : Prediction) : Prediction :=
  {| price := v; direction := direction p; stake := stake p;
     confirmed := confirmed p; exists_ := exists_ p |}.
Definition with_direction (v : FHE.euint8) (p : Prediction) : Prediction :=
  {| price := price p; direction := v; stake := stake p;
     confirmed := confirmed p; exists_ := exists_ p |}.
Definition with_stake (v : N) (p : Prediction) : Prediction :=
  {| price := price p; direction := direction p; stake := v;
     confirmed := confirmed p; exists_ := exists_ p |}.
Definition with_confirmed (v : bool) (p : Prediction) : Prediction :=
  {| price := price p; direction := direction p; stake := stake p;
     confirmed := v; exists_ := exists_ p |}.
Definition with_exists (v : bool) (p : Prediction) : Prediction :=
  {| price := price p; direction := direction p; stake := stake p;
     confirmed := confirmed p; exists_ := v |}.

(** *** The execution monad *)

Inductive Outcome (A : Type) :=
| Return (a : A) (s : State)
| Reverted (f : Failure) (s : State).   (* [s]: the state when it failed *)
Global Arguments Return {A} a s.
Global Arguments Reverted {A} f s.

Definition Exec (A : Type) : Type := State -> Outcome A.

Definition ret {A} (a : A) : Exec A := fun s => Return a s.

Definition bind {A B} (m : Exec A) (k : A -> Exec B) : Exec B :=
  fun s =>
    match m s with
    | Return a s' => k a s'
    | Reverted f s' => Reverted f s'
    end.

Definition revert {A} (f : Failure) : Exec A := fun s => Reverted f s.

Definition require (cond : bool) (reason : string) : Exec unit :=
  if cond then ret tt else revert (Error reason).

Definition load {A} (f : State -> A) : Exec A := fun s => Return (f s) s.

Definition store (f : State -> State) : Exec unit := fun s => Return tt (f s).

Definition emit (e : Event) : Exec unit := store (add_event e).

End Ledger.

Notation "x <- m ;; k" := (bind m (fun x => k))
  (at level 100, m at next level, right associativity, only parsing).
Notation "m ;; k" := (bind m (fun _ => k))
  (at level 100, right associativity, only parsing).

Section Contract.

Context `{E : FHE.Engine}.

(** *** Engine calls that touch the ledger's context *)

Definition FHE_fromExternal64 (h : FHE.externalEuint64) (proof : bytes)
    : Exec FHE.euint64 :=
  match FHE.fromExternal64 h proof with
  | Some v => ret v
  | None => revert InvalidProof
  end.

Definition FHE_fromExternal8 (h : FHE.externalEuint8) (proof : bytes)
    : Exec FHE.euint8 :=
  match FHE.fromExternal8 h proof with
  | Some v => ret v
  | None => revert InvalidProof
  end.

Definition FHE_allow (h : Handle) (who : address) : Exec unit :=
  store (add_grant h who).

Definition FHE_allowThis (env : Env) (h : Handle) : Exec unit :=
  FHE_allow h (this env).

(** Solidity 0.8 checked addition on uint256. *)
Definition checked_add (a b : N) : Exec N :=
  if a + b <=? uint256_max then ret (a + b) else revert (Panic 17).

(** *** The contract *)

(** constructor *)
Definition constructor (deployer : address) : State :=
  {| _owner := deployer;
     _dailyPrice := ∅;
     _priceRecorded := ∅;
     _latestDay := ∅;
     _predictions := ∅;
     _points := ∅;
     _pointsInitialized := ∅;
     acl := [];
     events := [OwnerUpdated 0 deployer] |}.

Definition onlyOwner (env : Env) : Exec unit :=
  o <- load _owner ;;
  require (msg_sender env =? o) "Owner only".

Definition owner (s : State) : address := _owner s.

Definition currentDay (env : Env) : N := block_timestamp env / one_days.

Definition recordDailyPrice (env : Env) (asset price : N) : Exec unit :=
  onlyOwner env ;;
  require (asset <=? 1) "Invalid asset" ;;
  require (price <=? uint64_max) "Price too large" ;;
  let day := currentDay env in
  recorded <- load (fun s => priceRecorded s asset day) ;;
  require (negb recorded) "Price already recorded" ;;
  store (set_dailyPrice asset day price) ;;
  store (set_priceRecorded asset day true) ;;
  store (set_latestDay asset day) ;;
  emit (PriceRecorded asset day price).

Definition getPrice (s : State) (asset day : N) : N * bool :=
  (dailyPrice s asset day, priceRecorded s asset day).

Definition getLatestDay (s : State) (asset : N) : N := latestDay s asset.

Definition _initPoints (env : Env) (user : address) : Exec unit :=
  initialized <- load (fun s => pointsInitialized s user) ;;
  if initialized then ret tt
  else
    store (set_points user (FHE.asEuint128 0)) ;;
    store (set_pointsInitialized user true) ;;
    p <- load (fun s => points s user) ;;
    FHE_allowThis env (H128 p) ;;
    p <- load (fun s => points s user) ;;
    FHE_allow (H128 p) user.

(** [msg_value] is the ether sent with the call; the function is the
    only payable one. *)
Definition placePrediction (env : Env) (msg_value : N) (asset : N)
    (encryptedPrice : FHE.externalEuint64)
    (encryptedDirection : FHE.externalEuint8)
    (inputProof : bytes) : Exec unit :=
  require (asset <=? 1) "Invalid asset" ;;
  require (0 <? msg_value) "Stake required" ;;
  require (msg_value <=? uint128_max) "Stake too large" ;;
  day <- checked_add (currentDay env) 1 ;;
  let user := msg_sender env in
  let prediction := fun s => predictions s user asset day in
  let assign := fun (f : Prediction -> Prediction) =>
    store (fun s => set_prediction user asset day (f (prediction s)) s) in
  ex <- load (fun s => exists_ (prediction s)) ;;
  require (negb ex) "Prediction exists" ;;
  hp <- FHE_fromExternal64 encryptedPrice inputProof ;;
  assign (with_price hp) ;;
  hd <- FHE_fromExternal8 encryptedDirection inputProof ;;
  assign (with_direction hd) ;;
  assign (with_stake msg_value) ;;
  assign (with_confirmed false) ;;
  assign (with_exists true) ;;
  p <- load prediction ;;
  FHE_allowThis env (H64 (price p)) ;;
  FHE_allowThis env (H8 (direction p)) ;;
  FHE_allow (H64 (price p)) user ;;
  FHE_allow (H8 (direction p)) user ;;
  _initPoints env user ;;
  emit (PredictionPlaced user asset day msg_value).

(** Lines 262-271 of the contract: the homomorphic reward. *)
Definition reward_of (price_ : N) (p : Prediction) : FHE.euint128 :=
  let actual := FHE.asEuint64 (uint64 price_) in
  let isGreater := FHE.gt actual (price p) in
  let isLess := FHE.lt actual (price p) in
  let dirGreater := FHE.eq (direction p) (FHE.asEuint8 1) in
  let dirLess := FHE.eq (direction p) (FHE.asEuint8 2) in
  let isCorrect :=
    FHE.or (FHE.and dirGreater isGreater) (FHE.and dirLess isLess) in
  FHE.select isCorrect (FHE.asEuint128 (uint128 (stake p))) (FHE.asEuint128 0).

Definition confirmPrediction (env : Env) (asset day : N) : Exec unit :=
  require (asset <=? 1) "Invalid asset" ;;
  require (day <=? currentDay env) "Too early" ;;
  recorded <- load (fun s => priceRecorded s asset day) ;;
  require recorded "Price not recorded" ;;
  let user := msg_sender env in
  let prediction := fun s => predictions s user asset day in
  p <- load prediction ;;
  require (exists_ p) "Prediction missing" ;;
  require (negb (confirmed p)) "Already confirmed" ;;
  price_ <- load (fun s => dailyPrice s asset day) ;;
  let reward := reward_of price_ p in
  old <- load (fun s => points s user) ;;
  store (set_points user (FHE.add old reward)) ;;
  cur <- load (fun s => points s user) ;;
  FHE_allowThis env (H128 cur) ;;
  cur <- load (fun s => points s user) ;;
  FHE_allow (H128 cur) user ;;
  store (fun s => set_prediction user asset day
                    (with_confirmed true (prediction s)) s) ;;
  emit (PredictionConfirmed user asset day).

Definition getPrediction (s : State) (user : address) (asset day : N)
    : FHE.euint64 * FHE.euint8 * N * bool * bool :=
  let p := predictions s user asset day in
  (price p, direction p, stake p, confirmed p, exists_ p).

Definition getPoints (s : State) (user : address) : FHE.euint128 :=
  points s user.

(** *** Transactions *)

Inductive Call :=
| RecordDailyPrice (asset price : N)
| PlacePrediction (msg_value asset : N)
    (encryptedPrice : FHE.externalEuint64)
    (encryptedDirection : FHE.externalEuint8) (inputProof : bytes)
| ConfirmPrediction (asset day : N).

Definition dispatch (env : Env) (c : Call) : Exec unit :=
  match c with
  | RecordDailyPrice asset price => recordDailyPrice env asset price
  | PlacePrediction v asset ep ed proof => placePrediction env v asset ep ed proof
  | ConfirmPrediction asset day => confirmPrediction env asset day
  end.

(** A transaction commits the state its call returns; a revert rolls the
    storage, the grants and the log back to where the call started. *)
Definition transact (env : Env) (c : Call) (s : State) : State * Status :=
  match dispatch env c s with
  | Return _ s' => (s', Success)
  | Reverted f _ => (s, Failed f)
  end.

Definition Tx : Type := Env * Call.

Definition step (s : State) (tx : Tx) : State := (transact tx.1 tx.2 s).1.

(** The state after a sequence of transactions, oldest first. *)
Definition run (txs : list Tx) (s : State) : State := foldl step s txs.

Inductive reachable : State -> Prop :=
| reachable_deploy deployer : reachable (constructor deployer)
| reachable_transact s env c :
    reachable s -> reachable (transact env c s).1.

End Contract.

(** ** The state each call commits *)

Section Effects.

Context `{E : FHE.Engine}.

Definition recorded_state (env : Env) (asset price : N) (s : State) : State :=
  {| _owner := _owner s;
     _dailyPrice := <[(asset, currentDay env) := price]> (_dailyPrice s);
     _priceRecorded := <[(asset, currentDay env) := true]> (_priceRecorded s);
     _latestDay := <[asset := currentDay env]> (_latestDay s);
     _predictions := _predictions s;
     _points := _points s;
     _pointsInitialized := _pointsInitialized s;
     acl := acl s;
     events := PriceRecorded asset (currentDay env) price :: events s |}.

Definition confirmed_state (env : Env) (asset day : N) (s : State) : State :=
  let user := msg_sender env in
  let p := predictions s user asset day in
  let total := FHE.add (points s user) (reward_of (dailyPrice s asset day) p) in
  {| _owner := _owner s;
     _dailyPrice := _dailyPrice s;
     _priceRecorded := _priceRecorded s;
     _latestDay := _latestDay s;
     _predictions := <[(user, asset, day) := with_confirmed true p]> (_predictions s);
     _points := <[user := total]> (_points s);
     _pointsInitialized := _pointsInitialized s;
     acl := (H128 total, user) :: (H128 total, this env) :: acl s;
     events := PredictionConfirmed user asset day :: events s |}.

Definition placed_state (env : Env) (msg_value asset : N)
    (hp : FHE.euint64) (hd : FHE.euint8) (s : State) : State :=
  let user := msg_sender env in
  let day := currentDay env + 1 in
  let fresh := negb (pointsInitialized s user) in
  let grants :=
    (H8 hd, user) :: (H64 hp, user)
      :: (H8 hd, this env) :: (H64 hp, this env) :: acl s in
  {| _owner := _owner s;
     _dailyPrice := _dailyPrice s;
     _priceRecorded := _priceRecorded s;
     _latestDay := _latestDay s;
     _predictions :=
       <[(user, asset, day) :=
           {| price := hp; direction := hd; stake := msg_value;
              confirmed := false; exists_ := true |}]> (_predictions s);
     _points :=
       if fresh then <[user := FHE.asEuint128 0]> (_points s) else _points s;
     _pointsInitialized :=
       if fresh then <[user := true]> (_pointsInitialized s)
       else _pointsInitialized s;
     acl :=
       if fresh
       then (H128 (FHE.asEuint128 0), user)
              :: (H128 (FHE.asEuint128 0), this env) :: grants
       else grants;
     events := PredictionPlaced user asset day msg_value :: events s |}.

End Effects.

(** ** Ledger invariants and traces *)

Section Properties.

Context `{E : FHE.Engine}.

(** What the checks of [recordDailyPrice] and [placePrediction] leave
    true of every stored price and every stored prediction. *)
Definition ledger_inv (s : State) : Prop :=
  (forall asset day, dailyPrice s asset day <= uint64_max)
  /\ (forall asset day, priceRecorded s asset day = true -> asset <= 1)
  /\ (forall user asset day,
        exists_ (predictions s user asset day) = true ->
        asset <= 1
        /\ 0 < stake (predictions s user asset day) <= uint128_max)
  /\ (forall user asset day,
        confirmed (predictions s user asset day) = true ->
        exists_ (predictions s user asset day) = true).

Definition succeeds (s : State) (tx : Tx) : bool :=
  bool_decide ((transact tx.1 tx.2 s).2 = Success).

(** The day written by [tx] when it is a successful [recordDailyPrice]
    for [asset]. *)
Definition recorded_day (asset : N) (s : State) (tx : Tx) : option N :=
  match tx.2 with
  | RecordDailyPrice a _ =>
      if bool_decide (a = asset) && succeeds s tx
      then Some (currentDay tx.1) else None
  | _ => None
  end.

(** The day of the most recent successful [recordDailyPrice] for [asset]
    along a trace started in [s]; [last] when there is none. *)
Fixpoint last_recorded_day (asset : N) (txs : list Tx) (s : State)
    (last : option N) : option N :=
  match txs with
  | [] => last
  | tx :: rest =>
      last_recorded_day asset rest (step s tx)
        (match recorded_day asset s tx with
         | Some d => Some d
         | None => last
         end)
  end.

(** The day index never goes back: each transaction runs on a day no
    earlier than the one before it, the first no earlier than day [d]. *)
Fixpoint clock_monotone (d : N) (txs : list Tx) : bool :=
  match txs with
  | [] => true
  | tx :: rest =>
      (d <=? currentDay tx.1) && clock_monotone (currentDay tx.1) rest
  end.

End Properties.

(** ** A concrete run on the plaintext stand-in *)

Module Scenario.

Definition plain : FHE.Engine := FHE.Plain (fun _ _ => true).
#[local] Existing Instance plain.

Definition operator : address := 1.
Definition alice : address := 2.
Definition bob : address := 3.
Definition ledger : address := 100.

Definition at_time (who : address) (t : N) : Env :=
  {| msg_sender := who; block_timestamp := t; this := ledger |}.

Definition deployed : State := constructor operator.

(** Day 0: alice stakes 5 that ETH closes day 1 above 1900. *)
Definition place_eth : Tx :=
  (at_time alice 100, PlacePrediction 5 0 1900 1 []).

(** Day 1: the operator records ETH at 2000. *)
Definition record_eth : Tx :=
  (at_time operator 86500, RecordDailyPrice 0 2000).

Definition confirm_eth : Tx :=
  (at_time alice 86600, ConfirmPrediction 0 1).

Definition placed : State := run [place_eth] deployed.
Definition priced : State := run [place_eth; record_eth] deployed.
Definition settled : State := run [place_eth; record_eth; confirm_eth] deployed.

(** The two tests of the contract's suite: a stake placed on day 20000 for
    day 20001, the price recorded on day 20001, then the confirmation. *)
Definition test_day : N := 20000.

Definition test_correct (stake_ : N) : list Tx :=
  [(at_time alice (test_day * 86400 + 100), PlacePrediction stake_ 0 1900 1 []);
   (at_time operator ((test_day + 1) * 86400 + 5), RecordDailyPrice 0 2000);
   (at_time alice ((test_day + 1) * 86400 + 6),
    ConfirmPrediction 0 (test_day + 1))].

Definition test_incorrect (stake_ : N) : list Tx :=
  [(at_time alice (test_day * 86400 + 100), PlacePrediction stake_ 1 2100 1 []);
   (at_time operator ((test_day + 1) * 86400 + 5), RecordDailyPrice 1 2000);
   (at_time alice ((test_day + 1) * 86400 + 6),
    ConfirmPrediction 1 (test_day + 1))].

End Scenario.

(** ** What the views can rely on *)

Section ViewInvariants.

Context `{E : FHE.Engine}.

(** Unrecorded prices and absent predictions read as zero, a confirmed
    prediction has its price recorded, and the latest day of an asset that
    has any recorded price is itself a recorded day. *)
Definition storage_inv (s : State) : Prop :=
  (forall asset day,
     priceRecorded s asset day = false -> dailyPrice s asset day = 0)
  /\ (forall user asset day,
        exists_ (predictions s user asset day) = false ->
        predictions s user asset day = no_prediction)
  /\ (forall user asset day,
        confirmed (predictions s user asset day) = true ->
        priceRecorded s asset day = true)
  /\ (forall asset day,
        priceRecorded s asset day = true ->
        priceRecorded s asset (latestDay s asset) = true).

(** A points account is initialized exactly for the users that hold a
    prediction; before that its slot was never written. *)
Definition points_inv (s : State) : Prop :=
  (forall user,
     pointsInitialized s user = false ->
     _points s !! user = None
     /\ forall asset day, exists_ (predictions s user asset day) = false)
  /\ (forall user,
        pointsInitialized s user = true ->
        exists asset day, exists_ (predictions s user asset day) = true).

(** The log says what the storage holds. *)
Definition log_inv (s : State) : Prop :=
  (forall asset day price_,
     PriceRecorded asset day price_ ∈ events s <->
     priceRecorded s asset day = true /\ dailyPrice s asset day = price_)
  /\ (forall user asset day stake_,
        PredictionPlaced user asset day stake_ ∈ events s <->
        exists_ (predictions s user asset day) = true
        /\ stake (predictions s user asset day) = stake_)
  /\ (forall user asset day,
        PredictionConfirmed user asset day ∈ events s <->
        confirmed (predictions s user asset day) = true)
  /\ (forall previousOwner newOwner,
        OwnerUpdated previousOwner newOwner ∈ events s <->
        previousOwner = 0 /\ newOwner = _owner s).

(** The grants a transaction adds: the newest grants of [s'] down to the
    grants of [s]. *)
Definition new_grants (s s' : State) : list (Handle * address) :=
  take (length (acl s') - length (acl s)) (acl s').

End ViewInvariants.

Section DayInvariant.

Context `{E : FHE.Engine}.

(** No recorded day is past the latest day of its asset, and no latest day
    is past day [d]. *)
Definition day_inv (d : N) (s : State) : Prop :=
  (forall asset day,
     priceRecorded s asset day = true -> day <= latestDay s asset)
  /\ (forall asset, latestDay s asset <= d).

End DayInvariant.

(** ** The web client's day input

    The confirmation form keeps the day as text.  A JavaScript string is
    read here through its UTF-8 bytes: a character is an ASCII digit
    exactly when it is a single byte between 48 and 57. *)

Module Client.

(** [0-9] *)
Definition is_digit (c : Ascii.ascii) : bool :=
  (48 <=? Ascii.N_of_ascii c) && (Ascii.N_of_ascii c <=? 57).

(** [0-9]* up to the end of the input *)
Fixpoint all_digits (s : string) : bool :=
  match s with
  | EmptyString => true
  | String c rest => is_digit c && all_digits rest
  end.

(** isNumeric: /^[0-9]+$/.test(value) *)
Definition isNumeric (value : string) : bool :=
  match value with
  | EmptyString => false
  | String c rest => is_digit c && all_digits rest
  end.

(** BigInt(s) for a string of decimal digits, the only strings the client
    converts; [None] stands for the SyntaxError of a string with another
    character. *)
Definition BigInt (s : string) : option N :=
  option_map N.of_uint (NilZero.uint_of_string s).

(** BigInt.prototype.toString(): decimal, no leading zero. *)
Definition toString (n : N) : string :=
  NilZero.string_of_uint (N.to_uint n).

(** The memo [confirmDayValue]: undefined unless the text is numeric. *)
Definition confirmDayValue (confirmDay : string) : option N :=
  if negb (isNumeric confirmDay) then None else BigInt confirmDay.

(** The text the form is filled with while it is empty:
    (currentDay + 1n).toString(). *)
Definition fallback (currentDay : N) : string := toString (currentDay + 1).

End Client.

(** ** What each call computes, check by check *)

Section Unfoldings.

Context `{E : FHE.Engine}.

Lemma State_ext (s1 s2 : State) :
  _owner s1 = _owner s2 ->
  _dailyPrice s1 = _dailyPrice s2 ->
  _priceRecorded s1 = _priceRecorded s2 ->
  _latestDay s1 = _latestDay s2 ->
  _predictions s1 = _predictions s2 ->
  _points s1 = _points s2 ->
  _pointsInitialized s1 = _pointsInitialized s2 ->
  acl s1 = acl s2 ->
  events s1 = events s2 ->
  s1 = s2.
Proof. destruct s1, s2; simpl; intros; subst; reflexivity. Qed.

Lemma recordDailyPrice_eq env asset price s :
  recordDailyPrice env asset price s =
    if negb (msg_sender env =? _owner s) then Reverted (Error "Owner only") s
    else if negb (asset <=? 1) then Reverted (Error "Invalid asset") s
    else if negb (price <=? uint64_max) then Reverted (Error "Price too large") s
    else if priceRecorded s asset (currentDay env)
         then Reverted (Error "Price already recorded") s
    else Return tt (recorded_state env asset price s).
Proof.
  unfold recordDailyPrice, onlyOwner, bind, load, require, ret, revert, emit, store.
  destruct (msg_sender env =? _owner s); simpl; [|done].
  destruct (asset <=? 1); simpl; [|done].
  destruct (price <=? uint64_max); simpl; [|done].
  destruct (priceRecorded s asset (currentDay env)); simpl; done.
Qed.

Lemma confirmPrediction_eq env asset day s :
  confirmPrediction env asset day s =
    let p := predictions s (msg_sender env) asset day in
    if negb (asset <=? 1) then Reverted (Error "Invalid asset") s
    else if negb (day <=? currentDay env) then Reverted (Error "Too early") s
    else if negb (priceRecorded s asset day)
         then Reverted (Error "Price not recorded") s
    else if negb (exists_ p) then Reverted (Error "Prediction missing") s
    else if confirmed p then Reverted (Error "Already confirmed") s
    else Return tt (confirmed_state env asset day s).
Proof.
  unfold confirmPrediction, FHE_allowThis, FHE_allow, bind, load, require,
    ret, revert, emit, store.
  destruct (asset <=? 1); simpl; [|done].
  destruct (day <=? currentDay env); simpl; [|done].
  destruct (priceRecorded s asset day); simpl; [|done].
  destruct (exists_ (predictions s (msg_sender env) asset day)); simpl; [|done].
  destruct (confirmed (predictions s (msg_sender env) asset day)); simpl; [done|].
  unfold confirmed_state, points, predictions, set_points, add_grant,
    set_prediction, add_event; simpl.
  rewrite lookup_insert_eq. simpl. done.
Qed.

Lemma placePrediction_eq env v asset ep ed proof s :
  placePrediction env v asset ep ed proof s =
    let user := msg_sender env in
    let day := currentDay env + 1 in
    if negb (asset <=? 1) then Reverted (Error "Invalid asset") s
    else if negb (0 <? v) then Reverted (Error "Stake required") s
    else if negb (v <=? uint128_max) then Reverted (Error "Stake too large") s
    else if negb (day <=? uint256_max) then Reverted (Panic 17) s
    else if exists_ (predictions s user asset day)
         then Reverted (Error "Prediction exists") s
    else match FHE.fromExternal64 ep proof with
         | None => Reverted InvalidProof s
         | Some hp =>
             match FHE.fromExternal8 ed proof with
             | None =>
                 Reverted InvalidProof
                   (set_prediction user asset day
                      (with_price hp (predictions s user asset day)) s)
             | Some hd => Return tt (placed_state env v asset hp hd s)
             end
         end.
Proof.
  unfold placePrediction, checked_add, FHE_fromExternal64, FHE_fromExternal8,
    _initPoints, FHE_allowThis, FHE_allow, bind, load, require, ret, revert,
    emit, store.
  destruct (asset <=? 1); simpl; [|done].
  destruct (0 <? v); simpl; [|done].
  destruct (v <=? uint128_max); simpl; [|done].
  destruct (currentDay env + 1 <=? uint256_max); simpl; [|done].
  destruct (exists_ (predictions s (msg_sender env) asset (currentDay env + 1)));
    simpl; [done|].
  destruct (FHE.fromExternal64 ep proof) as [hp|]; simpl; [|done].
  destruct (FHE.fromExternal8 ed proof) as [hd|]; simpl; [|done].
  unfold placed_state, predictions, pointsInitialized, points; simpl.
  rewrite !lookup_insert_eq; simpl.
  destruct (default false (_pointsInitialized s !! msg_sender env)); simpl;
    f_equal; apply State_ext; simpl;
    rewrite ?lookup_insert_eq, ?insert_insert_eq; done.
Qed.

End Unfoldings.

(** ** Facts shared by the claims *)

Ltac open_call c :=
  destruct c; unfold transact, dispatch;
  rewrite ?recordDailyPrice_eq, ?placePrediction_eq, ?confirmPrediction_eq;
  cbv zeta; repeat case_match; simplify_eq; cbn [fst snd].

Ltac reads :=
  unfold getPrice, getLatestDay, getPoints, dailyPrice, priceRecorded,
    latestDay, predictions, points, pointsInitialized in *;
  cbn [recorded_state placed_state confirmed_state _owner _dailyPrice
       _priceRecorded _latestDay _predictions _points _pointsInitialized
       acl events] in *.

Ltac bools :=
  repeat match goal with
    | H : negb _ = false |- _ => apply negb_false_iff in H
    | H : negb _ = true |- _ => apply negb_true_iff in H
    | H : (_ <=? _) = true |- _ => apply N.leb_le in H
    | H : (_ <=? _) = false |- _ => apply N.leb_gt in H
    | H : (_ <? _) = true |- _ => apply N.ltb_lt in H
    | H : (_ <? _) = false |- _ => apply N.ltb_ge in H
    | H : (_ =? _) = true |- _ => apply N.eqb_eq in H
    | H : (_ =? _) = false |- _ => apply N.eqb_neq in H
    end.

Section Stability.

Context `{E : FHE.Engine}.

Lemma run_app (l1 l2 : list Tx) (s : State) :
  run (l1 ++ l2) s = run l2 (run l1 s).
Proof. unfold run. apply foldl_app. Qed.

Lemma run_cons (tx : Tx) (l : list Tx) (s : State) :
  run (tx :: l) s = run l (step s tx).
Proof. reflexivity. Qed.

Lemma reachable_run (txs : list Tx) (s : State) :
  reachable s -> reachable (run txs s).
Proof.
  revert s. induction txs as [|[env c] txs IH]; intros s Hs; [done|].
  rewrite run_cons. apply IH. by apply reachable_transact.
Qed.

(** A failed transaction is a no-op. *)
Lemma transact_failed env c s f :
  (transact env c s).2 = Failed f -> (transact env c s).1 = s.
Proof. unfold transact. by destruct (dispatch env c s). Qed.

Lemma transact_owner env c s : _owner (transact env c s).1 = _owner s.
Proof. open_call c; done. Qed.

Lemma run_owner txs s : _owner (run txs s) = _owner s.
Proof.
  revert s. induction txs as [|[env c] txs IH]; intros s; [done|].
  rewrite run_cons, IH. apply transact_owner.
Qed.

(** Once recorded, a price and its flag survive every transaction. *)
Lemma recorded_step env c s asset day :
  priceRecorded s asset day = true ->
  priceRecorded (transact env c s).1 asset day = true
  /\ dailyPrice (transact env c s).1 asset day = dailyPrice s asset day.
Proof.
  intros Hrec. open_call c; try done; reads.
  rewrite !lookup_insert. case_decide; simplify_eq; [|done].
  rewrite Hrec in *. done.
Qed.

Lemma recorded_run txs s asset day :
  priceRecorded s asset day = true ->
  priceRecorded (run txs s) asset day = true
  /\ dailyPrice (run txs s) asset day = dailyPrice s asset day.
Proof.
  revert s. induction txs as [|[env c] txs IH]; intros s Hrec; [done|].
  rewrite run_cons. unfold step; simpl.
  destruct (recorded_step env c s asset day Hrec) as [H1 H2].
  destruct (IH _ H1) as [H3 H4]. split; [done|congruence].
Qed.

(** An existing prediction keeps its handles and stake; its confirmed
    flag can only go from false to true. *)
Lemma prediction_step env c s user asset day :
  let p := predictions s user asset day in
  let p' := predictions (transact env c s).1 user asset day in
  exists_ p = true ->
  exists_ p' = true /\ price p' = price p /\ direction p' = direction p
  /\ stake p' = stake p /\ (confirmed p = true -> confirmed p' = true).
Proof.
  intros p p' Hex. subst p p'. open_call c; try done; reads.
  - rewrite lookup_insert. case_decide; simplify_eq; [|done].
    rewrite Hex in *. done.
  - rewrite lookup_insert. case_decide; simplify_eq; [|done].
    simpl. done.
Qed.

Lemma prediction_run txs s user asset day :
  let p := predictions s user asset day in
  let p' := predictions (run txs s) user asset day in
  exists_ p = true ->
  exists_ p' = true /\ price p' = price p /\ direction p' = direction p
  /\ stake p' = stake p /\ (confirmed p = true -> confirmed p' = true).
Proof.
  cbv zeta. revert s.
  induction txs as [|[env c] txs IH]; intros s Hex; [done|].
  rewrite run_cons. unfold step; simpl.
  destruct (prediction_step env c s user asset day Hex)
    as (H1 & H2 & H3 & H4 & H5).
  destruct (IH _ H1) as (G1 & G2 & G3 & G4 & G5).
  repeat split; try congruence. auto.
Qed.

(** What is known after a call has succeeded. *)
Lemma record_success env asset price s :
  (transact env (RecordDailyPrice asset price) s).2 = Success ->
  (transact env (RecordDailyPrice asset price) s).1
    = recorded_state env asset price s
  /\ msg_sender env = _owner s /\ asset <= 1 /\ price <= uint64_max
  /\ priceRecorded s asset (currentDay env) = false.
Proof.
  unfold transact, dispatch. rewrite recordDailyPrice_eq.
  repeat case_match; simplify_eq; try done. intros _. bools. done.
Qed.

Lemma place_success env v asset ep ed proof s :
  (transact env (PlacePrediction v asset ep ed proof) s).2 = Success ->
  exists hp hd,
    FHE.fromExternal64 ep proof = Some hp
    /\ FHE.fromExternal8 ed proof = Some hd
    /\ (transact env (PlacePrediction v asset ep ed proof) s).1
       = placed_state env v asset hp hd s
    /\ asset <= 1 /\ 0 < v <= uint128_max
    /\ currentDay env + 1 <= uint256_max
    /\ exists_ (predictions s (msg_sender env) asset (currentDay env + 1))
       = false.
Proof.
  unfold transact, dispatch. rewrite placePrediction_eq. cbv zeta.
  repeat case_match; simplify_eq; try done. intros _. bools.
  eexists _, _. repeat split; done.
Qed.

Lemma confirm_success env asset day s :
  (transact env (ConfirmPrediction asset day) s).2 = Success ->
  (transact env (ConfirmPrediction asset day) s).1
    = confirmed_state env asset day s
  /\ asset <= 1 /\ day <= currentDay env
  /\ priceRecorded s asset day = true
  /\ exists_ (predictions s (msg_sender env) asset day) = true
  /\ confirmed (predictions s (msg_sender env) asset day) = false.
Proof.
  unfold transact, dispatch. rewrite confirmPrediction_eq. cbv zeta.
  repeat case_match; simplify_eq; try done. intros _. bools. done.
Qed.

Lemma ledger_inv_deploy deployer : ledger_inv (constructor deployer).
Proof.
  unfold ledger_inv, constructor; reads.
  repeat split; intros; rewrite ?lookup_empty in *; simpl in *;
    try done; lia.
Qed.

Lemma ledger_inv_step env c s :
  ledger_inv s -> ledger_inv (transact env c s).1.
Proof.
  intros (Hp & Hr & Hs & Hc).
  unfold ledger_inv in *.
  open_call c; try done; bools; reads;
    (refine (conj _ (conj _ (conj _ _)));
     intros *; rewrite ?lookup_insert; try case_decide; simplify_eq;
     cbn [default from_option id stake exists_ confirmed with_confirmed];
     eauto).
  all: try (intros _; split; [done|lia]).
  all: reads; eauto.
Qed.

Lemma reachable_inv s : reachable s -> ledger_inv s.
Proof.
  induction 1; [apply ledger_inv_deploy|by apply ledger_inv_step].
Qed.

End Stability.

(** ** Settlement on the plaintext stand-in *)

(** The reward of lines 262-271, read on plaintext handles. *)
Lemma reward_of_plain (verify : N -> bytes -> bool) (price_ : N)
    (p : Prediction (E:=FHE.Plain verify)) :
  price_ <= uint64_max -> stake p <= uint128_max ->
  reward_of price_ p
  = if ((direction p =? 1) && (price p <? price_))
       || ((direction p =? 2) && (price_ <? price p))
    then stake p else 0.
Proof.
  intros Hprice Hstake. unfold uint64_max in Hprice. unfold uint128_max in Hstake.
  unfold reward_of, uint64, uint128.
  cbn [FHE.select FHE.or FHE.and FHE.eq FHE.gt FHE.lt FHE.asEuint8
       FHE.asEuint64 FHE.asEuint128 FHE.Plain].
  rewrite !(N.mod_small price_), !(N.mod_small (stake p)) by lia.
  change (1 mod 2 ^ 8) with 1. change (2 mod 2 ^ 8) with 2.
  change (0 mod 2 ^ 128) with 0.
  reflexivity.
Qed.

(** C1: with the engine replaced by the plaintext stand-in, a successful
    [confirmPrediction] adds to the caller's points the stored stake when
    (direction = 1 and recorded price > predicted price) or (direction = 2
    and recorded price < predicted price), and 0 in every other case; the
    sum is the engine's 128-bit addition.  In particular direction 1,
    predicted 1900, actual 2000 gives the stake; direction 1, predicted
    2100, actual 2000 gives 0; direction 2, predicted 2100, actual 2000
    gives the stake. *)
Theorem settlement_adds_stake_or_zero (verify : N -> bytes -> bool)
    (env : Env) (asset day : N) (s : State (E:=FHE.Plain verify)) :
  reachable s ->
  (transact env (ConfirmPrediction asset day) s).2 = Success ->
  let user := msg_sender env in
  let p := predictions s user asset day in
  let actual := dailyPrice s asset day in
  let added : N :=
    if ((direction p =? 1) && (price p <? actual))
       || ((direction p =? 2) && (actual <? price p))
    then stake p else 0 in
  let s' := (transact env (ConfirmPrediction asset day) s).1 in
  getPoints s' user = (getPoints s user + added) mod 2 ^ 128
  /\ (getPoints s user + added < 2 ^ 128 ->
      getPoints s' user = getPoints s user + added)
  /\ (forall st c e, st <= uint128_max ->
        reward_of (E:=FHE.Plain verify) 2000
          (@Build_Prediction (FHE.Plain verify) 1900 1 st c e) = st
        /\ reward_of (E:=FHE.Plain verify) 2000
             (@Build_Prediction (FHE.Plain verify) 2100 1 st c e) = 0
        /\ reward_of (E:=FHE.Plain verify) 2000
             (@Build_Prediction (FHE.Plain verify) 2100 2 st c e) = st).
Proof.
  intros Hreach Hok user p actual added s'.
  destruct (reachable_inv s Hreach) as (Hp & _ & Hs & _).
  destruct (confirm_success env asset day s Hok) as (Hs' & _ & _ & _ & Hex & _).
  fold s' in Hs'. fold user p in Hex.
  destruct (Hs user asset day Hex) as [_ Hstake]. fold p in Hstake.
  pose proof (Hp asset day) as Hprice. fold actual in Hprice.
  assert (Hsum : getPoints s' user = (getPoints s user + added) mod 2 ^ 128).
  { rewrite Hs'. unfold getPoints, points at 1. cbn [confirmed_state _points].
    rewrite lookup_insert_eq. cbn [default from_option id].
    fold user p actual. rewrite (reward_of_plain verify actual p Hprice);
      [reflexivity|lia]. }
  split; [exact Hsum|]. split.
  - intros Hfit. rewrite Hsum. apply N.mod_small. exact Hfit.
  - intros st c e Hst. unfold uint128_max in Hst.
    rewrite !reward_of_plain; cbn [price direction stake];
      try (unfold uint64_max, uint128_max; lia).
    repeat split; reflexivity.
Qed.

Lemma settlement_adds_stake_or_zero_witness :
  reachable (E:=Scenario.plain) Scenario.priced
  /\ (transact (E:=Scenario.plain) Scenario.confirm_eth.1
        Scenario.confirm_eth.2 Scenario.priced).2 = Success
  /\ getPoints (E:=Scenario.plain) Scenario.settled Scenario.alice = 5.
Proof.
  assert (Hreach : reachable (E:=Scenario.plain) Scenario.priced)
    by apply reachable_run, reachable_deploy.
  assert (Hok : (transact (E:=Scenario.plain) Scenario.confirm_eth.1
                   Scenario.confirm_eth.2 Scenario.priced).2 = Success)
    by (vm_compute; reflexivity).
  split; [exact Hreach|]. split; [exact Hok|].
  etransitivity.
  - exact (proj1 (settlement_adds_stake_or_zero (fun _ _ => true)
              Scenario.confirm_eth.1 0 1 Scenario.priced Hreach Hok)).
  - vm_compute. reflexivity.
Defined.

(** ** Who can confirm *)

(** C2, as the code has it: the prediction to settle is looked up under
    [msg.sender], so only the user who placed a prediction can trigger its
    confirmation.  For a prediction of [user] whose day has elapsed and
    whose price is recorded, [confirmPrediction] called by [user] succeeds,
    merges the reward into [user]'s points and marks the prediction
    confirmed; called by any other principal it leaves that prediction and
    [user]'s points as they were: the call acts on the caller's own
    (asset, day) key, so it reverts with "Prediction missing" and changes
    nothing when the caller holds no prediction there, and when it succeeds
    it is the caller's own prediction that it has confirmed. *)
Theorem confirm_own_prediction_only `{E : FHE.Engine}
    (env : Env) (asset day : N) (user : address) (s : State) :
  reachable s ->
  day <= currentDay env ->
  priceRecorded s asset day = true ->
  exists_ (predictions s user asset day) = true ->
  confirmed (predictions s user asset day) = false ->
  (msg_sender env = user ->
     (transact env (ConfirmPrediction asset day) s).2 = Success
     /\ confirmed
          (predictions (transact env (ConfirmPrediction asset day) s).1
             user asset day) = true
     /\ points (transact env (ConfirmPrediction asset day) s).1 user
        = FHE.add (points s user)
            (reward_of (dailyPrice s asset day)
               (predictions s user asset day)))
  /\ (msg_sender env <> user ->
        predictions (transact env (ConfirmPrediction asset day) s).1
          user asset day = predictions s user asset day
        /\ points (transact env (ConfirmPrediction asset day) s).1 user
           = points s user
        /\ (exists_ (predictions s (msg_sender env) asset day) = false ->
            transact env (ConfirmPrediction asset day) s
            = (s, Failed (Error "Prediction missing")))
        /\ ((transact env (ConfirmPrediction asset day) s).2 = Success ->
            exists_ (predictions s (msg_sender env) asset day) = true
            /\ confirmed (predictions s (msg_sender env) asset day) = false
            /\ confirmed
                 (predictions (transact env (ConfirmPrediction asset day) s).1
                    (msg_sender env) asset day) = true)).
Proof.
  intros Hreach Hday Hrec Hex Hconf.
  destruct (reachable_inv s Hreach) as (_ & Hr & _ & _).
  pose proof (Hr asset day Hrec) as Hasset.
  apply N.leb_le in Hasset, Hday.
  split.
  - intros <-. unfold transact, dispatch. rewrite confirmPrediction_eq.
    cbv zeta. rewrite Hasset, Hday, Hrec, Hex, Hconf. cbn [negb fst snd].
    split; [done|]. reads. rewrite !lookup_insert_eq. done.
  - intros Hother.
    assert (Hframe :
              predictions (transact env (ConfirmPrediction asset day) s).1
                user asset day = predictions s user asset day
              /\ points (transact env (ConfirmPrediction asset day) s).1 user
                 = points s user).
    { unfold transact, dispatch. rewrite confirmPrediction_eq.
      cbv zeta. repeat case_match; simplify_eq; cbn [fst snd]; try done.
      reads. rewrite !lookup_insert_ne by congruence. done. }
    destruct Hframe as [Hpred Hpts].
    split; [exact Hpred|]. split; [exact Hpts|]. split.
    + intros Hnone. unfold transact, dispatch. rewrite confirmPrediction_eq.
      cbv zeta. rewrite Hasset, Hday, Hrec, Hnone. reflexivity.
    + intros Hok.
      destruct (confirm_success env asset day s Hok)
        as (Hs' & _ & _ & _ & Hx & Hc).
      split; [exact Hx|]. split; [exact Hc|].
      rewrite Hs'. reads. rewrite lookup_insert_eq. reflexivity.
Qed.

Lemma confirm_own_prediction_only_witness :
  (transact (E:=Scenario.plain) Scenario.confirm_eth.1
     (ConfirmPrediction 0 1) Scenario.priced).2 = Success
  /\ confirmed
       (predictions (E:=Scenario.plain)
          (transact Scenario.confirm_eth.1 (ConfirmPrediction 0 1)
             Scenario.priced).1 Scenario.alice 0 1) = true.
Proof.
  assert (Hreach : reachable (E:=Scenario.plain) Scenario.priced)
    by apply reachable_run, reachable_deploy.
  destruct (confirm_own_prediction_only (E:=Scenario.plain)
              Scenario.confirm_eth.1 0 1 Scenario.alice Scenario.priced Hreach)
    as [Hown _]; try (vm_compute; reflexivity).
  - vm_compute. discriminate.
  - destruct (Hown eq_refl) as (H1 & H2 & _). split; [exact H1|exact H2].
Defined.

(** C2 as stated fails: alice holds an open prediction for (ETH, day 1),
    the day has elapsed and its price is recorded, and the confirmation
    triggered by bob reverts with "Prediction missing", leaving alice's
    prediction unconfirmed and her points untouched. *)
Lemma confirm_by_another_caller_fails :
  let env := Scenario.at_time Scenario.bob 86600 in
  let s := Scenario.priced in
  exists_ (predictions (E:=Scenario.plain) s Scenario.alice 0 1) = true
  /\ confirmed (predictions (E:=Scenario.plain) s Scenario.alice 0 1) = false
  /\ (1 <=? currentDay env) = true
  /\ getPrice (E:=Scenario.plain) s 0 1 = (2000, true)
  /\ (transact (E:=Scenario.plain) env (ConfirmPrediction 0 1) s).2
     = Failed (Error "Prediction missing")
  /\ confirmed
       (predictions (E:=Scenario.plain)
          (transact env (ConfirmPrediction 0 1) s).1 Scenario.alice 0 1)
     = false
  /\ getPoints (E:=Scenario.plain)
       (transact env (ConfirmPrediction 0 1) s).1 Scenario.alice
     = getPoints (E:=Scenario.plain) s Scenario.alice.
Proof. vm_compute. repeat split; reflexivity. Qed.

(** ** The price ledger is write-once *)

(** C3, as the code has it: after a successful [recordDailyPrice] of [price]
    for [asset] on day [currentDay], the stored price of that (asset, day)
    stays [price] with its recorded flag set after any further
    transactions, and every later [recordDailyPrice] for the same asset on
    the same day fails and changes nothing: with "Price already recorded"
    when it comes from the owner with a price of at most 2^64 - 1 (the
    owner, asset and price checks come first and report their own
    error). *)
Theorem record_price_write_once `{E : FHE.Engine}
    (env : Env) (asset price : N) (s : State) :
  (transact env (RecordDailyPrice asset price) s).2 = Success ->
  forall txs : list Tx,
    let s2 := run txs (transact env (RecordDailyPrice asset price) s).1 in
    getPrice s2 asset (currentDay env) = (price, true)
    /\ forall (env' : Env) (price' : N),
         currentDay env' = currentDay env ->
         (transact env' (RecordDailyPrice asset price') s2).2 <> Success
         /\ (transact env' (RecordDailyPrice asset price') s2).1 = s2
         /\ (msg_sender env' = owner s2 -> price' <= uint64_max ->
             (transact env' (RecordDailyPrice asset price') s2).2
             = Failed (Error "Price already recorded"))
         /\ (msg_sender env' <> owner s2 ->
             (transact env' (RecordDailyPrice asset price') s2).2
             = Failed (Error "Owner only"))
         /\ (msg_sender env' = owner s2 -> uint64_max < price' ->
             (transact env' (RecordDailyPrice asset price') s2).2
             = Failed (Error "Price too large")).
Proof.
  intros Hok txs s2.
  destruct (record_success env asset price s Hok) as (Hs1 & _ & Hasset & _ & _).
  assert (Hnow : priceRecorded (transact env (RecordDailyPrice asset price) s).1
                   asset (currentDay env) = true
                 /\ dailyPrice (transact env (RecordDailyPrice asset price) s).1
                      asset (currentDay env) = price).
  { rewrite Hs1. reads. rewrite !lookup_insert_eq. done. }
  destruct Hnow as [Hrec Hprice].
  destruct (recorded_run txs _ asset (currentDay env) Hrec) as [Hrec2 Hprice2].
  fold s2 in Hrec2, Hprice2.
  split.
  - unfold getPrice. rewrite Hrec2, Hprice2, Hprice. reflexivity.
  - intros env' price' Hday.
    unfold transact, dispatch, owner. rewrite recordDailyPrice_eq.
    rewrite Hday, Hrec2.
    repeat case_match; simplify_eq; cbn [fst snd]; bools;
      repeat split; try done; intros; try done; try lia.
Qed.

Lemma record_price_write_once_witness :
  getPrice (E:=Scenario.plain)
    (run [] (transact Scenario.record_eth.1 (RecordDailyPrice 0 2000)
               Scenario.placed).1)
    0 (currentDay Scenario.record_eth.1) = (2000, true)
  /\ (transact (E:=Scenario.plain) Scenario.record_eth.1
        (RecordDailyPrice 0 1999)
        (run [] (transact Scenario.record_eth.1 (RecordDailyPrice 0 2000)
                   Scenario.placed).1)).2
     = Failed (Error "Price already recorded").
Proof.
  assert (Hok : (transact (E:=Scenario.plain) Scenario.record_eth.1
                   (RecordDailyPrice 0 2000) Scenario.placed).2 = Success)
    by (vm_compute; reflexivity).
  destruct (record_price_write_once (E:=Scenario.plain)
              Scenario.record_eth.1 0 2000 Scenario.placed Hok [])
    as [Hprice Hlater].
  split; [exact Hprice|].
  destruct (Hlater Scenario.record_eth.1 1999 eq_refl) as (_ & _ & Herr & _).
  apply Herr.
  - vm_compute. reflexivity.
  - vm_compute. discriminate.
Defined.

(** C3 as stated fails: the operator has recorded ETH at 2000 for day 1,
    and a later [recordDailyPrice] for the same asset on the same day with
    price 2^64 reverts with "Price too large", not with "Price already
    recorded". *)
Lemma record_again_too_large_price :
  (transact (E:=Scenario.plain) Scenario.record_eth.1
     (RecordDailyPrice 0 2000) Scenario.placed).2 = Success
  /\ getPrice (E:=Scenario.plain) Scenario.priced 0 1 = (2000, true)
  /\ currentDay Scenario.record_eth.1 = 1
  /\ (transact (E:=Scenario.plain) Scenario.record_eth.1
        (RecordDailyPrice 0 (2 ^ 64)) Scenario.priced).2
     = Failed (Error "Price too large")
  /\ (transact (E:=Scenario.plain) Scenario.record_eth.1
        (RecordDailyPrice 0 (2 ^ 64)) Scenario.priced).2
     <> Failed (Error "Price already recorded").
Proof. vm_compute. repeat split; try reflexivity. discriminate. Qed.

(** ** One prediction per user, asset and day *)

(** C4, as the code has it: a successful [placePrediction] stores the
    prediction under day = currentDay + 1, with the decoded handles, the
    stake sent, confirmed = false and exists = true, at a key that held no
    prediction; after any further transactions that key still holds the
    same handles and stake, and every later [placePrediction] by the same
    user for the same asset on the same day fails and changes nothing: with
    "Prediction exists" when its stake is within 0 < stake <= 2^128 - 1
    (the stake checks come first and report their own error). *)
Theorem place_prediction_once `{E : FHE.Engine}
    (env : Env) (v asset : N) (ep : FHE.externalEuint64)
    (ed : FHE.externalEuint8) (proof : bytes) (s : State) :
  (transact env (PlacePrediction v asset ep ed proof) s).2 = Success ->
  exists (hp : FHE.euint64) (hd : FHE.euint8),
    FHE.fromExternal64 ep proof = Some hp
    /\ FHE.fromExternal8 ed proof = Some hd
    /\ exists_ (predictions s (msg_sender env) asset (currentDay env + 1))
       = false
    /\ predictions (transact env (PlacePrediction v asset ep ed proof) s).1
         (msg_sender env) asset (currentDay env + 1)
       = {| price := hp; direction := hd; stake := v;
            confirmed := false; exists_ := true |}
    /\ (forall user a day,
          (user, a, day) <> (msg_sender env, asset, currentDay env + 1) ->
          predictions (transact env (PlacePrediction v asset ep ed proof) s).1
            user a day = predictions s user a day)
    /\ forall txs : list Tx,
         let s2 :=
           run txs (transact env (PlacePrediction v asset ep ed proof) s).1 in
         let p2 := predictions s2 (msg_sender env) asset (currentDay env + 1) in
         exists_ p2 = true /\ price p2 = hp /\ direction p2 = hd
         /\ stake p2 = v
         /\ forall (env' : Env) (v' : N) ep' ed' proof',
              msg_sender env' = msg_sender env ->
              currentDay env' = currentDay env ->
              (transact env' (PlacePrediction v' asset ep' ed' proof') s2).2
                <> Success
              /\ (transact env' (PlacePrediction v' asset ep' ed' proof') s2).1
                 = s2
              /\ (0 < v' <= uint128_max ->
                  (transact env' (PlacePrediction v' asset ep' ed' proof') s2).2
                  = Failed (Error "Prediction exists"))
              /\ (v' = 0 ->
                  (transact env' (PlacePrediction v' asset ep' ed' proof') s2).2
                  = Failed (Error "Stake required"))
              /\ (uint128_max < v' ->
                  (transact env' (PlacePrediction v' asset ep' ed' proof') s2).2
                  = Failed (Error "Stake too large")).
Proof.
  intros Hok.
  destruct (place_success env v asset ep ed proof s Hok)
    as (hp & hd & Hp & Hd & Hs1 & Hasset & Hv & Hday & Hfresh).
  exists hp, hd. split; [exact Hp|]. split; [exact Hd|].
  split; [exact Hfresh|].
  assert (Hnew : predictions
                   (transact env (PlacePrediction v asset ep ed proof) s).1
                   (msg_sender env) asset (currentDay env + 1)
                 = {| price := hp; direction := hd; stake := v;
                      confirmed := false; exists_ := true |}).
  { rewrite Hs1. reads. rewrite lookup_insert_eq. done. }
  split; [exact Hnew|]. split.
  { intros user a day Hne. rewrite Hs1. reads.
    rewrite lookup_insert_ne by congruence. done. }
  intros txs s2 p2.
  destruct (prediction_run txs
              (transact env (PlacePrediction v asset ep ed proof) s).1
              (msg_sender env) asset (currentDay env + 1))
    as (Hex2 & Hp2 & Hd2 & Hv2 & _).
  { rewrite Hnew. done. }
  fold s2 in Hex2, Hp2, Hd2, Hv2. fold p2 in Hex2, Hp2, Hd2, Hv2.
  rewrite Hnew in Hp2, Hd2, Hv2. cbn [price direction stake] in Hp2, Hd2, Hv2.
  split; [exact Hex2|]. split; [exact Hp2|]. split; [exact Hd2|].
  split; [exact Hv2|].
  intros env' v' ep' ed' proof' Hsender Hday'.
  unfold transact, dispatch. rewrite placePrediction_eq. cbv zeta.
  rewrite Hsender, Hday'. fold p2. rewrite Hex2.
  apply N.leb_le in Hasset, Hday. rewrite Hasset, Hday. cbn [negb].
  repeat case_match; simplify_eq; cbn [fst snd]; bools;
    repeat split; try done; intros; try done; try lia.
Qed.

Lemma place_prediction_once_witness :
  exists (hp hd : N),
    predictions (E:=Scenario.plain)
      (transact Scenario.place_eth.1 (PlacePrediction (E:=Scenario.plain) 5 0 1900 1 [])
         Scenario.deployed).1
      (msg_sender Scenario.place_eth.1) 0
      (currentDay Scenario.place_eth.1 + 1)
    = @Build_Prediction Scenario.plain hp hd 5 false true.
Proof.
  assert (Hok : (transact (E:=Scenario.plain) Scenario.place_eth.1
                   (PlacePrediction (E:=Scenario.plain) 5 0 1900 1 []) Scenario.deployed).2
                = Success) by (vm_compute; reflexivity).
  destruct (place_prediction_once (E:=Scenario.plain) Scenario.place_eth.1
              5 0 (1900 : N) (1 : N) [] Scenario.deployed Hok)
    as (hp & hd & _ & _ & _ & Hnew & _).
  exists hp, hd. exact Hnew.
Defined.

(** C4 as stated fails: alice has placed a prediction for ETH on day 0, and
    her second [placePrediction] for ETH on the same day, sent with no
    stake, reverts with "Stake required", not with "Prediction exists". *)
Lemma place_again_without_stake :
  (transact (E:=Scenario.plain) Scenario.place_eth.1
     (PlacePrediction (E:=Scenario.plain) 5 0 1900 1 []) Scenario.deployed).2 = Success
  /\ exists_ (predictions (E:=Scenario.plain) Scenario.placed
                Scenario.alice 0 1) = true
  /\ (transact (E:=Scenario.plain) Scenario.place_eth.1
        (PlacePrediction (E:=Scenario.plain) 0 0 1900 1 []) Scenario.placed).2
     = Failed (Error "Stake required")
  /\ (transact (E:=Scenario.plain) Scenario.place_eth.1
        (PlacePrediction (E:=Scenario.plain) 0 0 1900 1 []) Scenario.placed).2
     <> Failed (Error "Prediction exists").
Proof. vm_compute. repeat split; try reflexivity. discriminate. Qed.

(** ** Confirmation *)

(** C5: for an existing, unconfirmed prediction whose day has elapsed and
    whose price is recorded, the first [confirmPrediction] succeeds and
    replaces the caller's points by the sum of the old points and the
    reward; the second one, by the same caller on the same or a later day
    (whatever transactions ran in between), reverts with "Already
    confirmed" and changes nothing, so the points are updated once across
    the two calls. *)
Theorem confirm_twice `{E : FHE.Engine}
    (env1 env2 : Env) (asset day : N) (s : State) (txs : list Tx) :
  asset <= 1 ->
  day <= currentDay env1 ->
  priceRecorded s asset day = true ->
  exists_ (predictions s (msg_sender env1) asset day) = true ->
  confirmed (predictions s (msg_sender env1) asset day) = false ->
  msg_sender env2 = msg_sender env1 ->
  currentDay env1 <= currentDay env2 ->
  let first := transact env1 (ConfirmPrediction asset day) s in
  let second := transact env2 (ConfirmPrediction asset day) (run txs first.1) in
  first.2 = Success
  /\ points first.1 (msg_sender env1)
     = FHE.add (points s (msg_sender env1))
         (reward_of (dailyPrice s asset day)
            (predictions s (msg_sender env1) asset day))
  /\ second.2 = Failed (Error "Already confirmed")
  /\ second.1 = run txs first.1.
Proof.
  intros Hasset Hday Hrec Hex Hconf Hsender Hclock first second.
  assert (Hday2 : (day <=? currentDay env2) = true).
  { apply N.leb_le. lia. }
  apply N.leb_le in Hasset, Hday.
  assert (Hfirst : first = (confirmed_state env1 asset day s, Success)).
  { subst first. unfold transact, dispatch. rewrite confirmPrediction_eq.
    cbv zeta. rewrite Hasset, Hday, Hrec, Hex, Hconf. done. }
  assert (Hmid : priceRecorded first.1 asset day = true
                 /\ exists_ (predictions first.1 (msg_sender env1) asset day)
                    = true
                 /\ confirmed (predictions first.1 (msg_sender env1) asset day)
                    = true).
  { rewrite Hfirst. cbn [fst]. reads. rewrite lookup_insert_eq.
    cbn [default from_option id with_confirmed exists_ confirmed]. done. }
  destruct Hmid as (Hrec1 & Hex1 & Hconf1).
  destruct (recorded_run txs first.1 asset day Hrec1) as [Hrec2 _].
  destruct (prediction_run txs first.1 (msg_sender env1) asset day Hex1)
    as (Hex2 & _ & _ & _ & Hconf2).
  specialize (Hconf2 Hconf1).
  split; [by rewrite Hfirst|]. split.
  { rewrite Hfirst. cbn [fst]. reads. rewrite lookup_insert_eq. done. }
  subst second. unfold transact at 1 2, dispatch.
  rewrite confirmPrediction_eq. cbv zeta.
  rewrite Hasset, Hday2, Hrec2, Hsender, Hex2, Hconf2. done.
Qed.

Lemma confirm_twice_witness :
  (transact (E:=Scenario.plain) Scenario.confirm_eth.1
     (ConfirmPrediction 0 1) Scenario.priced).2 = Success
  /\ (transact (E:=Scenario.plain)
        (Scenario.at_time Scenario.alice 90000) (ConfirmPrediction 0 1)
        (run []
           (transact Scenario.confirm_eth.1 (ConfirmPrediction 0 1)
              Scenario.priced).1)).2
     = Failed (Error "Already confirmed").
Proof.
  destruct (confirm_twice (E:=Scenario.plain) Scenario.confirm_eth.1
              (Scenario.at_time Scenario.alice 90000) 0 1 Scenario.priced [])
    as (H1 & _ & H2 & _); try (vm_compute; reflexivity);
    try (vm_compute; discriminate).
  split; [exact H1|exact H2].
Defined.

(** C6, as the code has it: with a valid asset, [confirmPrediction] reverts
    with "Too early" whenever day > currentDay, and with "Price not
    recorded" whenever day <= currentDay and no price is recorded for
    (asset, day); in both cases whatever the caller's prediction for
    (asset, day) is, and nothing changes. *)
Theorem confirm_precondition_errors `{E : FHE.Engine}
    (env : Env) (asset day : N) (s : State) :
  asset <= 1 ->
  (currentDay env < day ->
     transact env (ConfirmPrediction asset day) s
     = (s, Failed (Error "Too early")))
  /\ (day <= currentDay env -> priceRecorded s asset day = false ->
        transact env (ConfirmPrediction asset day) s
        = (s, Failed (Error "Price not recorded"))).
Proof.
  intros Hasset. apply N.leb_le in Hasset.
  unfold transact, dispatch. rewrite confirmPrediction_eq. cbv zeta.
  rewrite Hasset. cbn [negb]. split.
  - intros Hday. apply N.leb_gt in Hday. rewrite Hday. done.
  - intros Hday Hrec. apply N.leb_le in Hday. rewrite Hday, Hrec. done.
Qed.

Lemma confirm_precondition_errors_witness :
  transact (E:=Scenario.plain) Scenario.place_eth.1 (ConfirmPrediction 0 1)
    Scenario.placed
  = (Scenario.placed, Failed (Error "Too early"))
  /\ transact (E:=Scenario.plain) Scenario.place_eth.1 (ConfirmPrediction 0 0)
       Scenario.placed
     = (Scenario.placed, Failed (Error "Price not recorded")).
Proof.
  split.
  - apply (confirm_precondition_errors (E:=Scenario.plain)
             Scenario.place_eth.1 0 1 Scenario.placed).
    + vm_compute. discriminate.
    + vm_compute. reflexivity.
  - apply (confirm_precondition_errors (E:=Scenario.plain)
             Scenario.place_eth.1 0 0 Scenario.placed).
    + vm_compute. discriminate.
    + vm_compute. discriminate.
    + vm_compute. reflexivity.
Defined.

(** C6 as stated fails: on day 0 no price is recorded for (ETH, day 1), and
    [confirmPrediction] for that key reverts with "Too early", not with
    "Price not recorded". *)
Lemma confirm_unrecorded_future_day :
  getPrice (E:=Scenario.plain) Scenario.placed 0 1 = (0, false)
  /\ currentDay Scenario.place_eth.1 = 0
  /\ (transact (E:=Scenario.plain) Scenario.place_eth.1
        (ConfirmPrediction 0 1) Scenario.placed).2
     = Failed (Error "Too early")
  /\ (transact (E:=Scenario.plain) Scenario.place_eth.1
        (ConfirmPrediction 0 1) Scenario.placed).2
     <> Failed (Error "Price not recorded").
Proof. vm_compute. repeat split; try reflexivity. discriminate. Qed.

(** ** The latest recorded day *)

Lemma latestDay_step `{E : FHE.Engine} (s : State) (tx : Tx) (asset : N) :
  latestDay (step s tx) asset
  = default (latestDay s asset) (recorded_day asset s tx).
Proof.
  destruct tx as [env c]. unfold step, recorded_day, succeeds.
  cbn [fst snd]. destruct c as [a p|v a ep ed proof|a d].
  - destruct (bool_decide_reflect
                ((transact env (RecordDailyPrice a p) s).2 = Success))
      as [Hok|Hfail].
    + destruct (record_success env a p s Hok) as (-> & _).
      reads. rewrite lookup_insert.
      destruct (bool_decide_reflect (a = asset)) as [->|Hne];
        case_decide; simplify_eq; done.
    + rewrite andb_false_r. cbn [default from_option id].
      destruct (transact env (RecordDailyPrice a p) s) as [s' st] eqn:Ht.
      destruct st as [|f]; [done|].
      rewrite (surjective_pairing (transact _ _ _)) in Ht.
      pose proof (transact_failed env (RecordDailyPrice a p) s f) as Hs.
      simplify_eq. cbn [snd fst] in *. rewrite Hs; done.
  - cbn [default from_option id].
    unfold transact, dispatch. rewrite placePrediction_eq. cbv zeta.
    repeat case_match; simplify_eq; done.
  - cbn [default from_option id].
    unfold transact, dispatch. rewrite confirmPrediction_eq. cbv zeta.
    repeat case_match; simplify_eq; done.
Qed.

Lemma latestDay_run `{E : FHE.Engine} (txs : list Tx) (s : State)
    (asset : N) (last : option N) (d0 : N) :
  default d0 last = latestDay s asset ->
  default d0 (last_recorded_day asset txs s last) = latestDay (run txs s) asset.
Proof.
  revert s last. induction txs as [|tx txs IH]; intros s last Hlast; [done|].
  rewrite run_cons. cbn [last_recorded_day]. apply IH.
  rewrite latestDay_step.
  destruct (recorded_day asset s tx); [done|exact Hlast].
Qed.

(** A successful recording writes the current day, which is never behind
    the latest day once every recording so far was on day [d] or before. *)
Lemma latestDay_step_le `{E : FHE.Engine} (s : State) (tx : Tx) (d : N) :
  (forall asset, latestDay s asset <= d) ->
  d <= currentDay tx.1 ->
  forall asset,
    latestDay s asset <= latestDay (step s tx) asset
    /\ latestDay (step s tx) asset <= currentDay tx.1.
Proof.
  intros Hbound Hclock asset.
  pose proof (Hbound asset) as Hb.
  rewrite latestDay_step. unfold recorded_day.
  destruct tx.2; cbn [default from_option id]; try lia.
  destruct (bool_decide (asset0 = asset) && succeeds s tx);
    cbn [default from_option id]; lia.
Qed.

Lemma latestDay_run_le `{E : FHE.Engine} (txs : list Tx) (s : State) (d : N) :
  (forall asset, latestDay s asset <= d) ->
  clock_monotone d txs = true ->
  forall asset, latestDay s asset <= latestDay (run txs s) asset.
Proof.
  revert s d. induction txs as [|tx txs IH]; intros s d Hbound Hclock asset;
    [done|].
  cbn [clock_monotone] in Hclock. apply andb_true_iff in Hclock.
  destruct Hclock as [Hle Hrest]. apply N.leb_le in Hle.
  rewrite run_cons.
  pose proof (latestDay_step_le s tx d Hbound Hle) as Hstep.
  etransitivity; [apply (Hstep asset)|].
  apply (IH (step s tx) (currentDay tx.1)); [|exact Hrest].
  intros a. apply (Hstep a).
Qed.

Lemma clock_monotone_app `{E : FHE.Engine} (d : N) (pre post : list Tx)
    (s : State) :
  (forall asset, latestDay s asset <= d) ->
  clock_monotone d (pre ++ post) = true ->
  exists d',
    (forall asset, latestDay (run pre s) asset <= d')
    /\ clock_monotone d' post = true.
Proof.
  revert s d. induction pre as [|tx pre IH]; intros s d Hbound Hclock.
  - exists d. done.
  - cbn [app clock_monotone] in Hclock. apply andb_true_iff in Hclock.
    destruct Hclock as [Hle Hrest]. apply N.leb_le in Hle.
    rewrite run_cons.
    apply (IH (step s tx) (currentDay tx.1)); [|exact Hrest].
    intros a. apply (latestDay_step_le s tx d Hbound Hle a).
Qed.

(** C7: after any sequence of transactions on a freshly deployed ledger,
    latestDay[asset] is the day of the most recent successful
    [recordDailyPrice] for that asset (0 when there was none); and when
    the current day never goes back along the sequence, latestDay[asset]
    after any prefix is at most latestDay[asset] after the whole
    sequence. *)
Theorem latest_day_tracks_last_record `{E : FHE.Engine}
    (deployer : address) (txs : list Tx) (asset : N) :
  getLatestDay (run txs (constructor deployer)) asset
  = default 0 (last_recorded_day asset txs (constructor deployer) None)
  /\ (clock_monotone 0 txs = true ->
      forall pre post, txs = pre ++ post ->
        getLatestDay (run pre (constructor deployer)) asset
        <= getLatestDay (run txs (constructor deployer)) asset).
Proof.
  unfold getLatestDay. split.
  - symmetry. apply latestDay_run. reflexivity.
  - intros Hclock pre post ->. rewrite run_app.
    assert (Hinit : forall a, latestDay (constructor deployer) a <= 0).
    { intros a. unfold latestDay, constructor; cbn [_latestDay].
      rewrite lookup_empty. cbn [default from_option id]. apply N.le_0_l. }
    destruct (clock_monotone_app 0 pre post _ Hinit Hclock) as (d' & Hb & Hm).
    apply (latestDay_run_le post _ d' Hb Hm).
Qed.

Lemma latest_day_tracks_last_record_witness :
  getLatestDay (E:=Scenario.plain)
    (run [Scenario.place_eth] (constructor Scenario.operator)) 0
  <= getLatestDay (E:=Scenario.plain)
       (run [Scenario.place_eth; Scenario.record_eth; Scenario.confirm_eth]
          (constructor Scenario.operator)) 0
  /\ getLatestDay (E:=Scenario.plain)
       (run [Scenario.place_eth; Scenario.record_eth; Scenario.confirm_eth]
          (constructor Scenario.operator)) 0
     = default 0
         (last_recorded_day 0
            [Scenario.place_eth; Scenario.record_eth; Scenario.confirm_eth]
            (constructor Scenario.operator) None).
Proof.
  destruct (latest_day_tracks_last_record (E:=Scenario.plain)
              Scenario.operator
              [Scenario.place_eth; Scenario.record_eth; Scenario.confirm_eth]
              0) as [Hlast Hmono].
  split; [|exact Hlast].
  apply (Hmono ltac:(vm_compute; reflexivity) [Scenario.place_eth]
           [Scenario.record_eth; Scenario.confirm_eth]).
  reflexivity.
Defined.

(** ** Failures and frames *)

(** C8: a [recordDailyPrice], [placePrediction] or [confirmPrediction] that
    fails leaves the whole state (prices, recorded flags, latest days,
    predictions, points, initialization flags, and also grants and log) as
    it was before the call.  Every [require] of the three functions fails
    before the first write; only the rejection of the direction input is
    raised after the price handle has been written, and the revert undoes
    that write. *)
Theorem failed_call_changes_nothing `{E : FHE.Engine}
    (env : Env) (c : Call) (s : State) (f : Failure) :
  (transact env c s).2 = Failed f ->
  (transact env c s).1 = s
  /\ exists s_at : State,
       dispatch env c s = Reverted f s_at
       /\ (f <> InvalidProof -> s_at = s).
Proof.
  intros Hfail. split; [exact (transact_failed env c s f Hfail)|].
  revert Hfail. unfold transact.
  destruct c as [a p|v a ep ed proof|a d]; unfold dispatch;
    rewrite ?recordDailyPrice_eq, ?placePrediction_eq, ?confirmPrediction_eq;
    cbv zeta; repeat case_match; cbn [snd]; intros Hf; simplify_eq;
    eexists; (split; [reflexivity|]); intros Hne; done.
Qed.

Lemma failed_call_changes_nothing_witness :
  (transact (E:=Scenario.plain) Scenario.place_eth.1
     (ConfirmPrediction 0 1) Scenario.placed).1 = Scenario.placed.
Proof.
  apply (failed_call_changes_nothing (E:=Scenario.plain) Scenario.place_eth.1
           (ConfirmPrediction 0 1) Scenario.placed (Error "Too early")).
  vm_compute. reflexivity.
Defined.

(** C10: a successful [confirmPrediction] by a caller for (asset, day) turns
    the confirmed flag of the caller's (asset, day) prediction from false
    to true and rewrites the caller's points; that prediction's price
    handle, direction handle, stake and exists flag, every other
    prediction, every price, recorded flag and latest day, every other
    user's points, the initialization flags and the owner are unchanged. *)
Theorem confirm_frame `{E : FHE.Engine}
    (env : Env) (asset day : N) (s : State) :
  (transact env (ConfirmPrediction asset day) s).2 = Success ->
  let s' := (transact env (ConfirmPrediction asset day) s).1 in
  let p := predictions s (msg_sender env) asset day in
  let p' := predictions s' (msg_sender env) asset day in
  confirmed p = false /\ confirmed p' = true
  /\ price p' = price p /\ direction p' = direction p
  /\ stake p' = stake p /\ exists_ p' = exists_ p
  /\ (forall user a d, (user, a, d) <> (msg_sender env, asset, day) ->
        _predictions s' !! (user, a, d) = _predictions s !! (user, a, d))
  /\ _dailyPrice s' = _dailyPrice s
  /\ _priceRecorded s' = _priceRecorded s
  /\ _latestDay s' = _latestDay s
  /\ (forall user, user <> msg_sender env ->
        _points s' !! user = _points s !! user)
  /\ _pointsInitialized s' = _pointsInitialized s
  /\ _owner s' = _owner s.
Proof.
  intros Hok s' p p'.
  destruct (confirm_success env asset day s Hok) as (Hs' & _ & _ & _ & _ & Hconf).
  subst p'. subst s'. rewrite Hs'. fold p in Hconf. split; [exact Hconf|].
  unfold predictions at 1 2 3 4 5.
  cbn [confirmed_state _owner _dailyPrice _priceRecorded _latestDay
       _predictions _points _pointsInitialized].
  rewrite lookup_insert_eq.
  cbn [default from_option id with_confirmed price direction stake confirmed
       exists_].
  repeat split; try reflexivity.
  - intros user a d Hne. rewrite lookup_insert_ne by congruence. reflexivity.
  - intros user Hne. rewrite lookup_insert_ne by congruence. reflexivity.
Qed.

Lemma confirm_frame_witness :
  _dailyPrice (E:=Scenario.plain)
    (transact Scenario.confirm_eth.1 (ConfirmPrediction 0 1) Scenario.priced).1
  = _dailyPrice (E:=Scenario.plain) Scenario.priced.
Proof.
  destruct (confirm_frame (E:=Scenario.plain) Scenario.confirm_eth.1 0 1
              Scenario.priced)
    as (_ & _ & _ & _ & _ & _ & _ & H & _).
  - vm_compute. reflexivity.
  - exact H.
Defined.

(** ** Stakes *)

(** C9: in every reachable state a prediction with [exists = true] stores a
    stake with 0 < stake <= 2^128 - 1, which no later transaction changes,
    so the narrowing [uint128(prediction.stake)] done at settlement returns
    the stake itself. *)
Theorem stake_fits_uint128 `{E : FHE.Engine} (s : State) user asset day :
  reachable s ->
  exists_ (predictions s user asset day) = true ->
  0 < stake (predictions s user asset day) <= uint128_max
  /\ uint128 (stake (predictions s user asset day))
     = stake (predictions s user asset day)
  /\ forall txs,
       stake (predictions (run txs s) user asset day)
       = stake (predictions s user asset day).
Proof.
  intros Hreach Hex.
  destruct (reachable_inv s Hreach) as (_ & _ & Hs & _).
  destruct (Hs user asset day Hex) as [_ Hrange].
  split; [exact Hrange|]. split.
  - unfold uint128. apply N.mod_small.
    unfold uint128_max in Hrange. lia.
  - intros txs.
    destruct (prediction_run txs s user asset day Hex) as (_ & _ & _ & H & _).
    exact H.
Qed.

Lemma stake_fits_uint128_witness :
  0 < stake (predictions (E:=Scenario.plain) Scenario.placed Scenario.alice 0 1)
    <= uint128_max
  /\ uint128 (stake (predictions (E:=Scenario.plain) Scenario.placed Scenario.alice 0 1))
     = stake (predictions (E:=Scenario.plain) Scenario.placed Scenario.alice 0 1)
  /\ forall txs,
       stake (predictions (E:=Scenario.plain) (run txs Scenario.placed)
                Scenario.alice 0 1)
       = stake (predictions (E:=Scenario.plain) Scenario.placed Scenario.alice 0 1).
Proof.
  apply (stake_fits_uint128 (E:=Scenario.plain)).
  - apply reachable_run, reachable_deploy.
  - vm_compute. reflexivity.
Defined.

(** ** The contract's own tests, replayed on the plaintext stand-in *)

(** "rewards a correct prediction": alice stakes 0.1 ether on ETH above 1900
    for the next day, the owner records 2000 on that day, alice confirms,
    and her points are the stake. *)
Example test_rewards_a_correct_prediction :
  getPoints (E:=Scenario.plain)
    (run (Scenario.test_correct (10 ^ 17)) Scenario.deployed) Scenario.alice
  = 10 ^ 17.
Proof. vm_compute. reflexivity. Qed.

(** "does not reward an incorrect prediction": the same on BTC with a
    prediction above 2100; the prediction is confirmed and her points
    are 0. *)
Example test_does_not_reward_an_incorrect_prediction :
  getPoints (E:=Scenario.plain)
    (run (Scenario.test_incorrect (5 * 10 ^ 16)) Scenario.deployed)
    Scenario.alice
  = 0
  /\ confirmed
       (predictions (E:=Scenario.plain)
          (run (Scenario.test_incorrect (5 * 10 ^ 16)) Scenario.deployed)
          Scenario.alice 1 (Scenario.test_day + 1))
     = true.
Proof. vm_compute. split; reflexivity. Qed.

(** ** Every transaction, case by case *)

(** A transaction either leaves the state as it was (it failed), or is one
    of the three calls and commits that call's state, its checks having
    passed. *)
Lemma transact_cases `{E : FHE.Engine} (env : Env) (c : Call) (s : State) :
  (transact env c s).1 = s
  \/ (exists asset price,
        c = RecordDailyPrice asset price
        /\ (transact env c s).1 = recorded_state env asset price s
        /\ msg_sender env = _owner s /\ asset <= 1 /\ price <= uint64_max
        /\ priceRecorded s asset (currentDay env) = false)
  \/ (exists v asset ep ed proof hp hd,
        c = PlacePrediction v asset ep ed proof
        /\ (transact env c s).1 = placed_state env v asset hp hd s
        /\ FHE.fromExternal64 ep proof = Some hp
        /\ FHE.fromExternal8 ed proof = Some hd
        /\ asset <= 1 /\ 0 < v <= uint128_max
        /\ exists_ (predictions s (msg_sender env) asset (currentDay env + 1))
           = false)
  \/ (exists asset day,
        c = ConfirmPrediction asset day
        /\ (transact env c s).1 = confirmed_state env asset day s
        /\ asset <= 1 /\ day <= currentDay env
        /\ priceRecorded s asset day = true
        /\ exists_ (predictions s (msg_sender env) asset day) = true
        /\ confirmed (predictions s (msg_sender env) asset day) = false).
Proof.
  destruct (transact env c s).2 as [|f] eqn:Hst.
  - destruct c as [a p|v a ep ed proof|a d].
    + right; left. exists a, p.
      destruct (record_success env a p s Hst) as (H1 & H2 & H3 & H4 & H5).
      done.
    + right; right; left.
      destruct (place_success env v a ep ed proof s Hst)
        as (hp & hd & H1 & H2 & H3 & H4 & H5 & H6 & H7).
      exists v, a, ep, ed, proof, hp, hd. done.
    + right; right; right. exists a, d.
      destruct (confirm_success env a d s Hst) as (H1 & H2 & H3 & H4 & H5 & H6).
      done.
  - left. exact (transact_failed env c s f Hst).
Qed.

Ltac by_cases env c s :=
  destruct (transact_cases env c s) as
    [Hsame
    | [(asset0 & price0 & Hc & Hs' & Hown & Hasset & Hprice & Hfresh)
    | [(v0 & asset0 & ep0 & ed0 & proof0 & hp0 & hd0 & Hc & Hs' & Hp & Hd
        & Hasset & Hv & Hfresh)
    | (asset0 & day0 & Hc & Hs' & Hasset & Hday & Hrec & Hex & Hconf)]]];
  [rewrite Hsame | rewrite Hs' | rewrite Hs' | rewrite Hs'].

Ltac at_key :=
  rewrite ?lookup_insert; repeat case_decide; simplify_eq;
  cbn [default from_option id price direction stake confirmed exists_
       with_confirmed].

Section ViewFacts.

Context `{E : FHE.Engine}.

Lemma storage_inv_deploy deployer : storage_inv (constructor deployer).
Proof.
  unfold storage_inv, constructor; reads.
  repeat split; intros *; rewrite ?lookup_empty; done.
Qed.

Lemma storage_inv_step env c s :
  ledger_inv s -> storage_inv s -> storage_inv (transact env c s).1.
Proof.
  intros (_ & _ & _ & Hce) (I1 & I2 & I3 & I4).
  by_cases env c s; [done|..]; unfold storage_inv; reads.
  - (* recordDailyPrice *)
    refine (conj _ (conj _ (conj _ _))); intros *.
    + at_key; [done|]. apply I1.
    + apply I2.
    + intros Hc'. specialize (I3 _ _ _ Hc'). at_key; done.
    + at_key; try done. apply I4.
  - (* placePrediction *)
    refine (conj _ (conj _ (conj _ _))); intros *.
    + apply I1.
    + at_key; [done|]. apply I2.
    + at_key; [done|]. apply I3.
    + apply I4.
  - (* confirmPrediction *)
    refine (conj _ (conj _ (conj _ _))); intros *.
    + apply I1.
    + at_key; [|apply I2]. intros Hx. reads. congruence.
    + at_key; [|apply I3]. done.
    + apply I4.
Qed.

Lemma reachable_storage_inv s : reachable s -> storage_inv s.
Proof.
  induction 1 as [deployer|s env c Hreach IH];
    [apply storage_inv_deploy|].
  apply storage_inv_step; [by apply reachable_inv|exact IH].
Qed.

End ViewFacts.

Section PointsFacts.

Context `{E : FHE.Engine}.

Lemma points_inv_deploy deployer : points_inv (constructor deployer).
Proof.
  unfold points_inv, constructor; reads.
  split; intros *; rewrite ?lookup_empty; done.
Qed.

Lemma points_inv_step env c s :
  points_inv s -> points_inv (transact env c s).1.
Proof.
  intros (P1 & P2).
  by_cases env c s; [done|..]; unfold points_inv; do 2 reads.
  - (* recordDailyPrice *) done.
  - (* placePrediction *)
    split; intros user.
    + destruct (decide (user = msg_sender env)) as [->|Hne].
      * destruct (default false (_pointsInitialized s !! msg_sender env))
          eqn:Hinit; cbn [negb]; [rewrite Hinit; done|].
        rewrite lookup_insert_eq. done.
      * intros Hinit.
        assert (Hold : default false (_pointsInitialized s !! user) = false).
        { revert Hinit.
          destruct (negb (default false (_pointsInitialized s !! msg_sender env)));
            rewrite ?lookup_insert_ne by done; done. }
        destruct (P1 user Hold) as [Hpts Hx]. split.
        -- destruct (negb (default false (_pointsInitialized s !! msg_sender env)));
             rewrite ?lookup_insert_ne by done; done.
        -- intros a d. rewrite lookup_insert_ne by congruence. apply Hx.
    + intros Hinit.
      destruct (decide (user = msg_sender env)) as [->|Hne].
      * exists asset0, (currentDay env + 1). rewrite lookup_insert_eq. done.
      * assert (Hold : default false (_pointsInitialized s !! user) = true).
        { revert Hinit.
          destruct (negb (default false (_pointsInitialized s !! msg_sender env)));
            rewrite ?lookup_insert_ne by done; done. }
        destruct (P2 user Hold) as (a & d & Hx). exists a, d.
        rewrite lookup_insert_ne by congruence. exact Hx.
  - (* confirmPrediction *)
    split; intros user Hinit.
    + destruct (P1 user Hinit) as [Hpts Hx].
      destruct (decide (user = msg_sender env)) as [->|Hne].
      * specialize (Hx asset0 day0). reads. congruence.
      * split; [rewrite lookup_insert_ne by done; exact Hpts|].
        intros a d. rewrite lookup_insert_ne by congruence. apply Hx.
    + destruct (P2 user Hinit) as (a & d & Hx). exists a, d.
      rewrite lookup_insert. case_decide; simplify_eq; [|done].
      reads. done.
Qed.

Lemma reachable_points_inv s : reachable s -> points_inv s.
Proof.
  induction 1 as [deployer|s env c Hreach IH];
    [apply points_inv_deploy|by apply points_inv_step].
Qed.

End PointsFacts.

Section LogFacts.

Context `{E : FHE.Engine}.

Lemma log_inv_deploy deployer : log_inv (constructor deployer).
Proof.
  unfold log_inv, constructor; reads.
  refine (conj _ (conj _ (conj _ _))); intros *;
    rewrite elem_of_cons, elem_of_nil, ?lookup_empty;
    cbn [default from_option id confirmed exists_ stake no_prediction];
    intuition congruence.
Qed.

Lemma log_inv_step env c s :
  ledger_inv s -> log_inv s -> log_inv (transact env c s).1.
Proof.
  intros (_ & _ & _ & Hce) (G1 & G2 & G3 & G4).
  by_cases env c s; [done|..]; unfold log_inv; do 2 reads;
    (refine (conj _ (conj _ (conj _ _))); intros *; rewrite elem_of_cons;
     rewrite ?G1, ?G2, ?G3, ?G4; at_key).
  all: try (intuition congruence).
  split; [intros [Heq|Hc']|]; [discriminate| |discriminate].
  specialize (Hce _ _ _ Hc'). congruence.
Qed.

Lemma reachable_log_inv s : reachable s -> log_inv s.
Proof.
  induction 1 as [deployer|s env c Hreach IH];
    [apply log_inv_deploy|].
  apply log_inv_step; [by apply reachable_inv|exact IH].
Qed.

End LogFacts.

(** ** The owner *)

(** X1: the owner is the deployer for the whole life of the ledger, the log
    holds a single OwnerUpdated(0, deployer), and a [recordDailyPrice] sent
    by anyone else reverts with "Owner only" whatever its arguments. *)
Theorem owner_is_deployer `{E : FHE.Engine}
    (deployer : address) (txs : list Tx) (env : Env) (asset price_ : N) :
  msg_sender env <> deployer ->
  owner (run txs (constructor deployer)) = deployer
  /\ (forall previousOwner newOwner,
        OwnerUpdated previousOwner newOwner
          ∈ events (run txs (constructor deployer))
        <-> previousOwner = 0 /\ newOwner = deployer)
  /\ transact env (RecordDailyPrice asset price_) (run txs (constructor deployer))
     = (run txs (constructor deployer), Failed (Error "Owner only")).
Proof.
  intros Hne.
  assert (Hown : _owner (run txs (constructor deployer)) = deployer)
    by (rewrite run_owner; reflexivity).
  split; [exact Hown|]. split.
  - intros p n.
    destruct (reachable_log_inv (run txs (constructor deployer)))
      as (_ & _ & _ & G4); [apply reachable_run, reachable_deploy|].
    rewrite G4, Hown. reflexivity.
  - unfold transact, dispatch. rewrite recordDailyPrice_eq, Hown.
    apply N.eqb_neq in Hne. rewrite Hne. reflexivity.
Qed.

Lemma owner_is_deployer_witness :
  owner (E:=Scenario.plain)
    (run [Scenario.place_eth] (constructor Scenario.operator))
  = Scenario.operator
  /\ transact (E:=Scenario.plain) Scenario.place_eth.1
       (RecordDailyPrice 0 2000)
       (run [Scenario.place_eth] (constructor Scenario.operator))
     = (run [Scenario.place_eth] (constructor Scenario.operator),
        Failed (Error "Owner only")).
Proof.
  destruct (owner_is_deployer (E:=Scenario.plain) Scenario.operator
              [Scenario.place_eth] Scenario.place_eth.1 0 2000)
    as (H1 & _ & H2).
  - vm_compute. discriminate.
  - split; [exact H1|exact H2].
Defined.

(** ** Views of keys that hold nothing *)

(** X2: in every reachable state [getPrice] of a key whose price was never
    recorded returns (0, false). *)
Theorem getPrice_unrecorded `{E : FHE.Engine} (s : State) (asset day : N) :
  reachable s ->
  priceRecorded s asset day = false ->
  getPrice s asset day = (0, false).
Proof.
  intros Hreach Hrec.
  destruct (reachable_storage_inv s Hreach) as (I1 & _).
  unfold getPrice. rewrite Hrec, (I1 asset day Hrec). reflexivity.
Qed.

Lemma getPrice_unrecorded_witness :
  getPrice (E:=Scenario.plain) Scenario.priced 1 1 = (0, false).
Proof.
  apply (getPrice_unrecorded (E:=Scenario.plain)).
  - apply reachable_run, reachable_deploy.
  - vm_compute. reflexivity.
Defined.

(** X3: in every reachable state [getPrediction] of a key that holds no
    prediction returns the zero handles, stake 0 and both flags false. *)
Theorem getPrediction_absent `{E : FHE.Engine}
    (s : State) (user : address) (asset day : N) :
  reachable s ->
  exists_ (predictions s user asset day) = false ->
  getPrediction s user asset day
  = (FHE.zero64, FHE.zero8, 0, false, false).
Proof.
  intros Hreach Hex.
  destruct (reachable_storage_inv s Hreach) as (_ & I2 & _).
  unfold getPrediction. rewrite (I2 user asset day Hex). reflexivity.
Qed.

Lemma getPrediction_absent_witness :
  getPrediction (E:=Scenario.plain) Scenario.priced Scenario.bob 0 1
  = (FHE.zero64, FHE.zero8, 0, false, false).
Proof.
  apply (getPrediction_absent (E:=Scenario.plain)).
  - apply reachable_run, reachable_deploy.
  - vm_compute. reflexivity.
Defined.

(** X4: in every reachable state, once any price is recorded for an asset,
    the price read at [getLatestDay] of that asset is a recorded one. *)
Theorem latest_day_is_recorded `{E : FHE.Engine} (s : State) (asset day : N) :
  reachable s ->
  priceRecorded s asset day = true ->
  (getPrice s asset (getLatestDay s asset)).2 = true.
Proof.
  intros Hreach Hrec.
  destruct (reachable_storage_inv s Hreach) as (_ & _ & _ & I4).
  unfold getPrice, getLatestDay. cbn [snd]. exact (I4 asset day Hrec).
Qed.

Lemma latest_day_is_recorded_witness :
  (getPrice (E:=Scenario.plain) Scenario.priced 0
     (getLatestDay (E:=Scenario.plain) Scenario.priced 0)).2 = true.
Proof.
  apply (latest_day_is_recorded (E:=Scenario.plain) Scenario.priced 0 1).
  - apply reachable_run, reachable_deploy.
  - vm_compute. reflexivity.
Defined.

(** X5: in every reachable state a confirmed prediction exists and the
    price of its (asset, day) is recorded. *)
Theorem confirmed_has_price `{E : FHE.Engine}
    (s : State) (user : address) (asset day : N) :
  reachable s ->
  confirmed (predictions s user asset day) = true ->
  exists_ (predictions s user asset day) = true
  /\ priceRecorded s asset day = true.
Proof.
  intros Hreach Hconf.
  destruct (reachable_storage_inv s Hreach) as (_ & _ & I3 & _).
  destruct (reachable_inv s Hreach) as (_ & _ & _ & Hce).
  split; [exact (Hce user asset day Hconf)|exact (I3 user asset day Hconf)].
Qed.

Lemma confirmed_has_price_witness :
  exists_ (predictions (E:=Scenario.plain) Scenario.settled Scenario.alice 0 1)
  = true
  /\ priceRecorded (E:=Scenario.plain) Scenario.settled 0 1 = true.
Proof.
  apply (confirmed_has_price (E:=Scenario.plain)).
  - apply reachable_run, reachable_deploy.
  - vm_compute. reflexivity.
Defined.

(** ** Points accounts *)

(** X6: a successful [placePrediction] leaves the caller's account
    initialized; the points are set to the encrypted zero only when the
    account was not initialized before, and are otherwise kept. *)
Theorem place_initializes_points_once `{E : FHE.Engine}
    (env : Env) (v asset : N) (ep : FHE.externalEuint64)
    (ed : FHE.externalEuint8) (proof : bytes) (s : State) :
  (transact env (PlacePrediction v asset ep ed proof) s).2 = Success ->
  pointsInitialized (transact env (PlacePrediction v asset ep ed proof) s).1
    (msg_sender env) = true
  /\ getPoints (transact env (PlacePrediction v asset ep ed proof) s).1
       (msg_sender env)
     = if pointsInitialized s (msg_sender env)
       then getPoints s (msg_sender env)
       else FHE.asEuint128 0.
Proof.
  intros Hok.
  destruct (place_success env v asset ep ed proof s Hok)
    as (hp & hd & _ & _ & -> & _).
  do 2 reads.
  destruct (default false (_pointsInitialized s !! msg_sender env)) eqn:Hinit;
    cbn [negb]; rewrite ?lookup_insert_eq, ?Hinit; done.
Qed.

Lemma place_initializes_points_once_witness :
  pointsInitialized (E:=Scenario.plain)
    (transact Scenario.place_eth.1 Scenario.place_eth.2 Scenario.deployed).1
    (msg_sender Scenario.place_eth.1) = true.
Proof.
  apply (place_initializes_points_once (E:=Scenario.plain)
           Scenario.place_eth.1 5 0 (1900 : N) (1 : N) [] Scenario.deployed).
  vm_compute. reflexivity.
Defined.

(** X7: no transaction sent by someone else changes a user's points slot
    or initialization flag. *)
Theorem points_only_by_owner_of_account `{E : FHE.Engine}
    (env : Env) (c : Call) (s : State) (user : address) :
  msg_sender env <> user ->
  _points (transact env c s).1 !! user = _points s !! user
  /\ getPoints (transact env c s).1 user = getPoints s user
  /\ pointsInitialized (transact env c s).1 user = pointsInitialized s user.
Proof.
  intros Hne.
  by_cases env c s; [done|..]; do 2 reads.
  - done.
  - destruct (negb (default false (_pointsInitialized s !! msg_sender env)));
      rewrite ?lookup_insert_ne by done; done.
  - rewrite lookup_insert_ne by done. done.
Qed.

Lemma points_only_by_owner_of_account_witness :
  getPoints (E:=Scenario.plain)
    (transact Scenario.confirm_eth.1 Scenario.confirm_eth.2 Scenario.priced).1
    Scenario.bob
  = getPoints (E:=Scenario.plain) Scenario.priced Scenario.bob.
Proof.
  apply (points_only_by_owner_of_account (E:=Scenario.plain)
           Scenario.confirm_eth.1 Scenario.confirm_eth.2 Scenario.priced
           Scenario.bob).
  vm_compute. discriminate.
Defined.

(** X8: in every reachable state a user's account is uninitialized exactly
    when the user holds no prediction at all, and then [getPoints] returns
    the zero handle of a slot never written. *)
Theorem points_uninitialized_iff_no_prediction `{E : FHE.Engine}
    (s : State) (user : address) :
  reachable s ->
  (pointsInitialized s user = false
   <-> forall asset day, exists_ (predictions s user asset day) = false)
  /\ (pointsInitialized s user = false -> getPoints s user = FHE.zero128).
Proof.
  intros Hreach. destruct (reachable_points_inv s Hreach) as (P1 & P2).
  split; [split|].
  - intros Hinit. apply (P1 user Hinit).
  - intros Hnone.
    destruct (pointsInitialized s user) eqn:Hinit; [|reflexivity].
    destruct (P2 user Hinit) as (a & d & Hex). rewrite Hnone in Hex. done.
  - intros Hinit. destruct (P1 user Hinit) as [Hp _].
    unfold getPoints, points. rewrite Hp. reflexivity.
Qed.

Lemma points_uninitialized_iff_no_prediction_witness :
  (pointsInitialized (E:=Scenario.plain) Scenario.priced Scenario.bob = false
   <-> forall asset day,
         exists_ (predictions (E:=Scenario.plain) Scenario.priced Scenario.bob
                    asset day) = false)
  /\ (pointsInitialized (E:=Scenario.plain) Scenario.priced Scenario.bob = false
      -> getPoints (E:=Scenario.plain) Scenario.priced Scenario.bob
         = FHE.zero128).
Proof.
  apply (points_uninitialized_iff_no_prediction (E:=Scenario.plain)).
  apply reachable_run, reachable_deploy.
Defined.

(** ** Grants *)

Lemma new_grants_app `{E : FHE.Engine} (s s' : State)
    (new : list (Handle * address)) :
  acl s' = new ++ acl s -> new_grants s s' = new.
Proof.
  intros Hacl. unfold new_grants. rewrite Hacl, length_app.
  replace (length new + length (acl s) - length (acl s))%nat
    with (length new) by lia.
  apply take_app_length.
Qed.

(** X9: the grants list only grows, and every grant a transaction adds goes
    to the caller or to the ledger itself, never to a third party; a call
    that fails adds no grant, and neither does a [recordDailyPrice]. *)
Theorem grants_only_to_caller_or_ledger `{E : FHE.Engine}
    (env : Env) (c : Call) (s : State) :
  acl (transact env c s).1 = new_grants s (transact env c s).1 ++ acl s
  /\ Forall (fun g => g.2 = msg_sender env \/ g.2 = this env)
       (new_grants s (transact env c s).1)
  /\ (forall f : Failure,
        (transact env c s).2 = Failed f ->
        new_grants s (transact env c s).1 = [])
  /\ (forall asset price_ : N,
        c = RecordDailyPrice asset price_ ->
        new_grants s (transact env c s).1 = []).
Proof.
  assert (Hnone : forall s' : State,
             acl s' = acl s -> new_grants s s' = []).
  { intros s' Hsame. apply (new_grants_app s s' []). exact Hsame. }
  assert (Hnew : exists new,
             acl (transact env c s).1 = new ++ acl s
             /\ Forall (fun g => g.2 = msg_sender env \/ g.2 = this env) new).
  { by_cases env c s.
    - exists []. split; [reflexivity|constructor].
    - exists []. split; [reflexivity|constructor].
    - cbn [placed_state acl].
      destruct (negb (pointsInitialized s (msg_sender env))).
      + eexists [_; _; _; _; _; _]. split; [reflexivity|].
        repeat (constructor; [cbn [snd]; auto|]). constructor.
      + eexists [_; _; _; _]. split; [reflexivity|].
        repeat (constructor; [cbn [snd]; auto|]). constructor.
    - cbn [confirmed_state acl].
      eexists [_; _]. split; [reflexivity|].
      repeat (constructor; [cbn [snd]; auto|]). constructor. }
  destruct Hnew as (new & Hacl & Hall).
  split; [rewrite (new_grants_app s _ new Hacl); exact Hacl|].
  split; [rewrite (new_grants_app s _ new Hacl); exact Hall|].
  split.
  - intros f Hfail. apply Hnone.
    rewrite (transact_failed env c s f Hfail). reflexivity.
  - intros asset price_ ->. apply Hnone.
    destruct (transact_cases env (RecordDailyPrice asset price_) s)
      as [Hsame
         | [(a & p & _ & Hs' & _)
         | [(v0 & a & ep & ed & pr & hp & hd & Hc & _)
         | (a & d & Hc & _)]]];
      [rewrite Hsame; reflexivity|rewrite Hs'; reflexivity
      |discriminate Hc|discriminate Hc].
Qed.

(** ** The event log *)

(** X10: in every reachable state the log holds PriceRecorded(asset, day,
    price) exactly when [getPrice] returns that price as recorded. *)
Theorem price_events_match_ledger `{E : FHE.Engine}
    (s : State) (asset day price_ : N) :
  reachable s ->
  PriceRecorded asset day price_ ∈ events s
  <-> getPrice s asset day = (price_, true).
Proof.
  intros Hreach. destruct (reachable_log_inv s Hreach) as (G1 & _).
  rewrite G1. unfold getPrice. split.
  - intros [-> ->]. reflexivity.
  - intros Heq. injection Heq as -> ->. done.
Qed.

Lemma price_events_match_ledger_witness :
  PriceRecorded 0 1 2000 ∈ events (E:=Scenario.plain) Scenario.priced
  <-> getPrice (E:=Scenario.plain) Scenario.priced 0 1 = (2000, true).
Proof.
  apply (price_events_match_ledger (E:=Scenario.plain)).
  apply reachable_run, reachable_deploy.
Defined.

(** X11: in every reachable state the log holds PredictionPlaced(user,
    asset, day, stake) exactly when the prediction of that key exists with
    that stake. *)
Theorem placed_events_match_store `{E : FHE.Engine}
    (s : State) (user : address) (asset day stake_ : N) :
  reachable s ->
  PredictionPlaced user asset day stake_ ∈ events s
  <-> exists_ (predictions s user asset day) = true
      /\ stake (predictions s user asset day) = stake_.
Proof.
  intros Hreach. destruct (reachable_log_inv s Hreach) as (_ & G2 & _).
  apply G2.
Qed.

Lemma placed_events_match_store_witness :
  PredictionPlaced Scenario.alice 0 1 5 ∈ events (E:=Scenario.plain) Scenario.priced
  <-> exists_ (predictions (E:=Scenario.plain) Scenario.priced Scenario.alice 0 1)
      = true
      /\ stake (predictions (E:=Scenario.plain) Scenario.priced Scenario.alice 0 1)
         = 5.
Proof.
  apply (placed_events_match_store (E:=Scenario.plain)).
  apply reachable_run, reachable_deploy.
Defined.

(** X12: in every reachable state the log holds PredictionConfirmed(user,
    asset, day) exactly when the prediction of that key is confirmed. *)
Theorem confirmed_events_match_store `{E : FHE.Engine}
    (s : State) (user : address) (asset day : N) :
  reachable s ->
  PredictionConfirmed user asset day ∈ events s
  <-> confirmed (predictions s user asset day) = true.
Proof.
  intros Hreach. destruct (reachable_log_inv s Hreach) as (_ & _ & G3 & _).
  apply G3.
Qed.

Lemma confirmed_events_match_store_witness :
  PredictionConfirmed Scenario.alice 0 1
    ∈ events (E:=Scenario.plain) Scenario.settled
  <-> confirmed
        (predictions (E:=Scenario.plain) Scenario.settled Scenario.alice 0 1)
      = true.
Proof.
  apply (confirmed_events_match_store (E:=Scenario.plain)).
  apply reachable_run, reachable_deploy.
Defined.

(** ** Days *)

(** X13: a [confirmPrediction] for [day] succeeds only at or after the
    first second of that day; so a prediction placed at [env], which is
    stored under currentDay + 1, is confirmed strictly later than it was
    placed. *)
Theorem confirmation_not_before_its_day `{E : FHE.Engine}
    (env' : Env) (asset day : N) (s : State) :
  (transact env' (ConfirmPrediction asset day) s).2 = Success ->
  day * one_days <= block_timestamp env'
  /\ forall env : Env,
       day = currentDay env + 1 ->
       block_timestamp env < block_timestamp env'.
Proof.
  intros Hok.
  destruct (confirm_success env' asset day s Hok) as (_ & _ & Hday & _).
  unfold currentDay, one_days in *.
  assert (H1 : day * 86400 <= block_timestamp env').
  { pose proof (N.Div0.mul_div_le (block_timestamp env') 86400). nia. }
  split; [exact H1|].
  intros env ->.
  pose proof (N.mod_lt (block_timestamp env) 86400 ltac:(lia)).
  pose proof (N.Div0.div_mod (block_timestamp env) 86400). nia.
Qed.

Lemma confirmation_not_before_its_day_witness :
  1 * one_days <= block_timestamp Scenario.confirm_eth.1
  /\ forall env : Env,
       1 = currentDay env + 1 ->
       block_timestamp env < block_timestamp Scenario.confirm_eth.1.
Proof.
  apply (confirmation_not_before_its_day (E:=Scenario.plain)
           Scenario.confirm_eth.1 0 1 Scenario.priced).
  vm_compute. reflexivity.
Defined.

Lemma day_inv_step `{E : FHE.Engine} (s : State) (tx : Tx) (d : N) :
  day_inv d s -> d <= currentDay tx.1 ->
  day_inv (currentDay tx.1) (step s tx).
Proof.
  intros (Hr0 & Hl0) Hclock. destruct tx as [env c]. unfold step.
  cbn [fst snd] in *. unfold day_inv.
  by_cases env c s; reads.
  - split; [exact Hr0|]. intros a. specialize (Hl0 a). lia.
  - split.
    + intros a d'. rewrite !lookup_insert.
      repeat case_decide; simplify_eq; cbn [default from_option id];
        try done; try lia.
      * intros Hr. specialize (Hr0 _ _ Hr). specialize (Hl0 a). lia.
      * apply Hr0.
    + intros a. rewrite lookup_insert. case_decide; simplify_eq;
        cbn [default from_option id]; [lia|].
      specialize (Hl0 a). reads. lia.
  - split; [exact Hr0|]. intros a. specialize (Hl0 a). lia.
  - split; [exact Hr0|]. intros a. specialize (Hl0 a). lia.
Qed.

Lemma day_inv_run `{E : FHE.Engine} (pre post : list Tx) (s : State) (d : N) :
  day_inv d s ->
  clock_monotone d (pre ++ post) = true ->
  exists d', day_inv d' (run pre s) /\ clock_monotone d' post = true.
Proof.
  revert s d. induction pre as [|tx pre IH]; intros s d Hinv Hclock.
  - exists d. done.
  - cbn [app clock_monotone] in Hclock. apply andb_true_iff in Hclock.
    destruct Hclock as [Hle Hrest]. apply N.leb_le in Hle.
    rewrite run_cons.
    apply (IH (step s tx) (currentDay tx.1)); [|exact Hrest].
    by apply (day_inv_step s tx d).
Qed.

Lemma day_inv_deploy `{E : FHE.Engine} (deployer : address) :
  day_inv 0 (constructor deployer).
Proof.
  unfold day_inv, constructor; reads. split; intros *;
    rewrite lookup_empty; cbn [default from_option id]; [done|lia].
Qed.

(** X14: when the current day never goes back, no price is ever on record
    for a day after the current one; so when a transaction runs - a
    [placePrediction] in particular, whose prediction is for currentDay + 1
    - the price its prediction will be settled against is not yet
    recorded. *)
Theorem no_price_for_a_future_day `{E : FHE.Engine}
    (deployer : address) (txs : list Tx) (tx : Tx) (asset day : N) :
  clock_monotone 0 (txs ++ [tx]) = true ->
  currentDay tx.1 < day ->
  getPrice (run txs (constructor deployer)) asset day = (0, false).
Proof.
  intros Hclock Hday.
  destruct (day_inv_run txs [tx] _ 0 (day_inv_deploy deployer) Hclock)
    as (d' & (Hr0 & Hl0) & Hm).
  cbn [clock_monotone] in Hm. apply andb_true_iff in Hm.
  destruct Hm as [Hle _]. apply N.leb_le in Hle.
  assert (Hnot : priceRecorded (run txs (constructor deployer)) asset day
                 = false).
  { destruct (priceRecorded (run txs (constructor deployer)) asset day)
      eqn:Hr; [|reflexivity].
    specialize (Hr0 _ _ Hr). specialize (Hl0 asset). lia. }
  destruct (reachable_storage_inv (run txs (constructor deployer)))
    as (I1 & _); [apply reachable_run, reachable_deploy|].
  unfold getPrice. rewrite Hnot, (I1 asset day Hnot). reflexivity.
Qed.

Lemma no_price_for_a_future_day_witness :
  getPrice (E:=Scenario.plain)
    (run [Scenario.place_eth] (constructor Scenario.operator)) 0 1
  = (0, false).
Proof.
  apply (no_price_for_a_future_day (E:=Scenario.plain) Scenario.operator
           [Scenario.place_eth] Scenario.place_eth 0 1).
  - vm_compute. reflexivity.
  - vm_compute. reflexivity.
Defined.

(** X15: when the current day never goes back, [getLatestDay] of an asset
    with a recorded price is the highest day that has one: every recorded
    day is at most the latest day, and the latest day is recorded. *)
Theorem latest_day_is_highest_recorded `{E : FHE.Engine}
    (deployer : address) (txs : list Tx) (asset day : N) :
  clock_monotone 0 txs = true ->
  priceRecorded (run txs (constructor deployer)) asset day = true ->
  day <= getLatestDay (run txs (constructor deployer)) asset
  /\ priceRecorded (run txs (constructor deployer)) asset
       (getLatestDay (run txs (constructor deployer)) asset) = true.
Proof.
  intros Hclock Hr.
  assert (Hclock' : clock_monotone 0 (txs ++ []) = true)
    by (rewrite app_nil_r; exact Hclock).
  destruct (day_inv_run txs [] _ 0 (day_inv_deploy deployer) Hclock')
    as (d' & (Hr0 & _) & _).
  destruct (reachable_storage_inv (run txs (constructor deployer)))
    as (_ & _ & _ & I4); [apply reachable_run, reachable_deploy|].
  unfold getLatestDay. split; [exact (Hr0 asset day Hr)|exact (I4 asset day Hr)].
Qed.

Lemma latest_day_is_highest_recorded_witness :
  1 <= getLatestDay (E:=Scenario.plain)
         (run [Scenario.place_eth; Scenario.record_eth]
            (constructor Scenario.operator)) 0
  /\ priceRecorded (E:=Scenario.plain)
       (run [Scenario.place_eth; Scenario.record_eth]
          (constructor Scenario.operator)) 0
       (getLatestDay (E:=Scenario.plain)
          (run [Scenario.place_eth; Scenario.record_eth]
             (constructor Scenario.operator)) 0) = true.
Proof.
  apply (latest_day_is_highest_recorded (E:=Scenario.plain)
           Scenario.operator [Scenario.place_eth; Scenario.record_eth] 0 1).
  - vm_compute. reflexivity.
  - vm_compute. reflexivity.
Defined.

(** ** The web client's day input *)

Module ClientFacts.

Import Client.

Lemma digit_parses (c : Ascii.ascii) (d : Decimal.uint) :
  is_digit c = true -> exists d', uint_of_char c (Some d) = Some d'.
Proof.
  destruct c as [[|] [|] [|] [|] [|] [|] [|] [|]]; cbv [is_digit];
    vm_compute; intros H; try discriminate H; eexists; reflexivity.
Qed.

Lemma parsed_is_digit (c : Ascii.ascii) (d d' : Decimal.uint) :
  uint_of_char c (Some d) = Some d' -> is_digit c = true.
Proof.
  destruct c as [[|] [|] [|] [|] [|] [|] [|] [|]]; cbn;
    intros H; try discriminate H; reflexivity.
Qed.

Lemma all_digits_parse (s : string) :
  all_digits s = true <-> exists d, NilEmpty.uint_of_string s = Some d.
Proof.
  induction s as [|c s IH]; cbn [all_digits NilEmpty.uint_of_string].
  - split; [eexists; reflexivity|reflexivity].
  - rewrite andb_true_iff, IH. split.
    + intros [Hc [d Hd]]. rewrite Hd. apply digit_parses. exact Hc.
    + intros [d' Hd'].
      destruct (NilEmpty.uint_of_string s) as [d|]; [|discriminate Hd'].
      split; [exact (parsed_is_digit c d d' Hd')|eexists; reflexivity].
Qed.

Lemma isNumeric_parse (s : string) :
  isNumeric s = true <-> exists d, NilZero.uint_of_string s = Some d.
Proof.
  destruct s as [|c s].
  - cbn. split; [discriminate|intros [d Hd]; discriminate Hd].
  - change (isNumeric (String c s)) with (all_digits (String c s)).
    change (NilZero.uint_of_string (String c s))
      with (NilEmpty.uint_of_string (String c s)).
    apply all_digits_parse.
Qed.

Lemma all_digits_string_of_uint (d : Decimal.uint) :
  all_digits (NilEmpty.string_of_uint d) = true.
Proof. induction d; cbn [NilEmpty.string_of_uint all_digits]; auto. Qed.

Lemma isNumeric_toString (n : N) : isNumeric (toString n) = true.
Proof.
  apply isNumeric_parse. unfold toString.
  destruct (NilZero.usu_gen (N.to_uint n)) as [H|H]; eexists; exact H.
Qed.

Lemma to_uint_nonnil (n : N) : N.to_uint n <> Decimal.Nil.
Proof.
  destruct n as [|p]; [discriminate|]. apply DecimalPos.Unsigned.to_uint_nonnil.
Qed.

End ClientFacts.

(** X16: the day text round-trips: for every day n, the text n.toString()
    is numeric and [confirmDayValue] reads n back from it; so the form's
    default text yields currentDay + 1, the day under which
    [placePrediction] stores a prediction made on the current day. *)
Theorem confirmDayValue_toString (n : N) :
  Client.isNumeric (Client.toString n) = true
  /\ Client.confirmDayValue (Client.toString n) = Some n
  /\ Client.confirmDayValue (Client.fallback n) = Some (n + 1).
Proof.
  assert (Hround : forall m,
             Client.confirmDayValue (Client.toString m) = Some m).
  { intros m. unfold Client.confirmDayValue.
    rewrite ClientFacts.isNumeric_toString. cbn [negb].
    unfold Client.BigInt, Client.toString.
    rewrite NilZero.usu by apply ClientFacts.to_uint_nonnil.
    cbn [option_map]. rewrite DecimalN.Unsigned.of_to. reflexivity. }
  split; [apply ClientFacts.isNumeric_toString|].
  split; [apply Hround|apply Hround].
Qed.

(** X17: [confirmDayValue] is defined exactly on the non-empty texts made
    of ASCII digits only; on those [BigInt] does not fail, and on every
    other text (the empty one included) the value is undefined. *)
Theorem confirmDayValue_defined (s : string) :
  (is_Some (Client.confirmDayValue s)
   <-> s <> EmptyString /\ Client.all_digits s = true)
  /\ (Client.isNumeric s = true -> is_Some (Client.BigInt s))
  /\ Client.confirmDayValue EmptyString = None.
Proof.
  split; [|split; [|reflexivity]].
  - unfold Client.confirmDayValue. destruct s as [|c s].
    + cbn. split; [intros [x Hx]; discriminate Hx|intros [H _]; done].
    + change (Client.all_digits (String c s))
        with (Client.isNumeric (String c s)).
      destruct (Client.isNumeric (String c s)) eqn:Hnum; cbn [negb].
      * split; [done|intros _].
        apply ClientFacts.isNumeric_parse in Hnum. destruct Hnum as [d Hd].
        unfold Client.BigInt. rewrite Hd. eexists; reflexivity.
      * split; [intros [x Hx]; discriminate Hx|intros [_ H]; discriminate H].
  - intros Hnum. apply ClientFacts.isNumeric_parse in Hnum.
    destruct Hnum as [d Hd]. unfold Client.BigInt. rewrite Hd.
    eexists; reflexivity.
Qed.

(** ** From placement to settlement *)

(** X18: a prediction placed on day D, whose asset price is then recorded
    on day D + 1, can be confirmed by its user on day D + 1 or later as
    long as it is still unconfirmed, whatever other transactions ran in
    between: the confirmation succeeds, the stored handles and stake are
    the ones placed, and the points become the sum of the points so far
    and the reward computed from the recorded price. *)
Theorem place_record_confirm `{E : FHE.Engine}
    (e1 e2 e3 : Env) (v asset price_ : N) (ep : FHE.externalEuint64)
    (ed : FHE.externalEuint8) (proof : bytes) (s : State)
    (txs1 txs2 : list Tx) :
  let user := msg_sender e1 in
  let day := currentDay e1 + 1 in
  let s1 := run txs1 (transact e1 (PlacePrediction v asset ep ed proof) s).1 in
  let s2 := run txs2 (transact e2 (RecordDailyPrice asset price_) s1).1 in
  (transact e1 (PlacePrediction v asset ep ed proof) s).2 = Success ->
  (transact e2 (RecordDailyPrice asset price_) s1).2 = Success ->
  currentDay e2 = day ->
  confirmed (predictions s2 user asset day) = false ->
  msg_sender e3 = user ->
  day <= currentDay e3 ->
  exists (hp : FHE.euint64) (hd : FHE.euint8),
    FHE.fromExternal64 ep proof = Some hp
    /\ FHE.fromExternal8 ed proof = Some hd
    /\ predictions s2 user asset day
       = {| price := hp; direction := hd; stake := v;
            confirmed := false; exists_ := true |}
    /\ (transact e3 (ConfirmPrediction asset day) s2).2 = Success
    /\ getPoints (transact e3 (ConfirmPrediction asset day) s2).1 user
       = FHE.add (getPoints s2 user)
           (reward_of price_
              {| price := hp; direction := hd; stake := v;
                 confirmed := false; exists_ := true |}).
Proof.
  intros user day s1 s2 Hplace Hrecord Hday2 Hunconf Hsender Hday3.
  destruct (place_success e1 v asset ep ed proof s Hplace)
    as (hp & hd & Hp & Hd & Hs1 & Hasset & _).
  exists hp, hd. split; [exact Hp|]. split; [exact Hd|].
  (* the prediction as placed, and as it survives *)
  assert (Hnew : predictions
                   (transact e1 (PlacePrediction v asset ep ed proof) s).1
                   user asset day
                 = {| price := hp; direction := hd; stake := v;
                      confirmed := false; exists_ := true |}).
  { rewrite Hs1. reads. rewrite lookup_insert_eq. done. }
  destruct (prediction_run txs1
              (transact e1 (PlacePrediction v asset ep ed proof) s).1
              user asset day) as (Hx1 & Hp1 & Hd1 & Hv1 & _).
  { rewrite Hnew. done. }
  fold s1 in Hx1, Hp1, Hd1, Hv1.
  destruct (prediction_step e2 (RecordDailyPrice asset price_) s1 user asset day
              Hx1) as (Hx1' & Hp1' & Hd1' & Hv1' & _).
  destruct (prediction_run txs2
              (transact e2 (RecordDailyPrice asset price_) s1).1
              user asset day Hx1')
    as (Hx2 & Hp2 & Hd2 & Hv2 & _).
  fold s2 in Hx2, Hp2, Hd2, Hv2.
  assert (Hpred : predictions s2 user asset day
                  = {| price := hp; direction := hd; stake := v;
                       confirmed := false; exists_ := true |}).
  { rewrite Hnew in Hp1, Hd1, Hv1. cbn [price direction stake] in Hp1, Hd1, Hv1.
    destruct (predictions s2 user asset day) as [p2 d2 st2 c2 x2].
    cbn [price direction stake confirmed exists_] in *. congruence. }
  split; [exact Hpred|].
  (* the price as recorded, and as it survives *)
  destruct (record_success e2 asset price_ s1 Hrecord) as (Hs1' & _).
  assert (Hrec1 : priceRecorded
                    (transact e2 (RecordDailyPrice asset price_) s1).1 asset day
                  = true
                  /\ dailyPrice
                       (transact e2 (RecordDailyPrice asset price_) s1).1
                       asset day = price_).
  { rewrite Hs1'. reads. rewrite Hday2, !lookup_insert_eq. done. }
  destruct Hrec1 as [Hr1 Hpr1].
  destruct (recorded_run txs2
              (transact e2 (RecordDailyPrice asset price_) s1).1
              asset day Hr1) as [Hr2 Hpr2].
  fold s2 in Hr2, Hpr2.
  (* the confirmation *)
  unfold transact, dispatch. rewrite confirmPrediction_eq. cbv zeta.
  rewrite Hsender. fold user. rewrite Hpred. cbn [exists_ confirmed negb].
  apply N.leb_le in Hasset, Hday3. rewrite Hasset, Hday3, Hr2. cbn [negb fst snd].
  split; [reflexivity|].
  unfold getPoints, points at 1. cbn [confirmed_state _points].
  rewrite Hsender. fold user. rewrite lookup_insert_eq.
  cbn [default from_option id]. rewrite Hpred, Hpr2, Hpr1. reflexivity.
Qed.

Lemma place_record_confirm_witness :
  exists (hp hd : N),
    predictions (E:=Scenario.plain)
      (run []
         (transact Scenario.record_eth.1 (RecordDailyPrice 0 2000)
            (run []
               (transact Scenario.place_eth.1
                  (PlacePrediction (E:=Scenario.plain) 5 0 1900 1 [])
                  Scenario.deployed).1)).1)
      (msg_sender Scenario.place_eth.1) 0 (currentDay Scenario.place_eth.1 + 1)
    = @Build_Prediction Scenario.plain hp hd 5 false true.
Proof.
  destruct (place_record_confirm (E:=Scenario.plain)
              Scenario.place_eth.1 Scenario.record_eth.1 Scenario.confirm_eth.1
              5 0 2000 (1900 : N) (1 : N) [] Scenario.deployed [] [])
    as (hp & hd & _ & _ & Hpred & _);
    try (vm_compute; reflexivity); try (vm_compute; discriminate).
  exists hp, hd. exact Hpred.
Defined.

(** ** A day that was missed *)

Lemma unrecorded_step `{E : FHE.Engine} (s : State) (tx : Tx) (asset day : N) :
  priceRecorded s asset day = false ->
  currentDay tx.1 <> day ->
  priceRecorded (step s tx) asset day = false.
Proof.
  intros Hno Hother. destruct tx as [env c]. unfold step. cbn [fst snd] in *.
  by_cases env c s; reads; try done.
  rewrite lookup_insert_ne by congruence. done.
Qed.

(** X19: a price can only be recorded during its own day.  Once the current
    day is past [day] and never goes back, a (asset, day) left unrecorded
    stays unrecorded after any transactions, and no [confirmPrediction] for
    it ever succeeds: the stakes placed on that day's price stay
    unsettled. *)
Theorem missed_day_is_never_settled `{E : FHE.Engine}
    (s : State) (txs : list Tx) (asset day today : N) (env : Env) :
  priceRecorded s asset day = false ->
  day < today ->
  clock_monotone today txs = true ->
  getPrice (run txs s) asset day = (dailyPrice s asset day, false)
  /\ (transact env (ConfirmPrediction asset day) (run txs s)).2 <> Success.
Proof.
  intros Hno Hpast Hclock.
  assert (Hstay : priceRecorded (run txs s) asset day = false
                  /\ dailyPrice (run txs s) asset day = dailyPrice s asset day).
  { revert s today Hno Hpast Hclock.
    induction txs as [|tx txs IH]; intros s today Hno Hpast Hclock; [done|].
    cbn [clock_monotone] in Hclock. apply andb_true_iff in Hclock.
    destruct Hclock as [Hle Hrest]. apply N.leb_le in Hle.
    rewrite run_cons.
    assert (Hne : currentDay tx.1 <> day) by lia.
    destruct (IH (step s tx) (currentDay tx.1)) as [H1 H2];
      [by apply unrecorded_step|lia|exact Hrest|].
    split; [exact H1|]. rewrite H2.
    destruct tx as [env' c]. unfold step. cbn [fst snd] in *.
    by_cases env' c s; reads; try done.
    rewrite lookup_insert_ne by congruence. done. }
  destruct Hstay as [Hrec Hprice]. split.
  - unfold getPrice. rewrite Hrec, Hprice. reflexivity.
  - intros Hok. destruct (confirm_success env asset day _ Hok)
      as (_ & _ & _ & Hr & _). congruence.
Qed.

Lemma missed_day_is_never_settled_witness :
  getPrice (E:=Scenario.plain) (run [Scenario.record_eth] Scenario.placed) 1 0
  = (dailyPrice (E:=Scenario.plain) Scenario.placed 1 0, false)
  /\ (transact (E:=Scenario.plain) Scenario.confirm_eth.1
        (ConfirmPrediction 1 0) (run [Scenario.record_eth] Scenario.placed)).2
     <> Success.
Proof.
  apply (missed_day_is_never_settled (E:=Scenario.plain) Scenario.placed
           [Scenario.record_eth] 1 0 1 Scenario.confirm_eth.1).
  - vm_compute. reflexivity.
  - vm_compute. reflexivity.
  - vm_compute. reflexivity.
Defined.
